(** * wrapt_timeout_decorator: the multiprocess timeout wrapper

    A shallow embedding of [wrap_function_multiprocess.py]: the class
    [Timeout] (the parent side, called the Supervisor in the specification)
    and the function [_target] (the child side).

    Python values are a small inductive type, the two processes are state
    monads over explicit states, and time is a rational clock.  What the
    [multiprocess] library does (pipes, processes) is written out in the
    sections "The pipe" and "The child process" below. *)

From Stdlib Require Import List String Bool ZArith QArith Qminmax Lia Lqa.
Import ListNotations.
Open Scope string_scope.
Open Scope Q_scope.
Open Scope list_scope.

Set Implicit Arguments.

(** ** Python values *)

#[warnings="-register-all"]
Inductive pyval : Type :=
| VNone
| VBool (b : bool)
| VInt (n : Z)
| VStr (s : string)
| VTuple (items : list pyval)
| VExc (kind : string) (args : list pyval)   (* an exception instance *)
| VOpaque (tag : nat) (kind : string) (args : list pyval)
    (* an object the pickler refuses, raising the exception [kind(args)] *)
| VOneWay (tag : nat) (kind : string) (args : list pyval).
    (* an object that pickles, but that the receiving process cannot
       rebuild: loading it raises the exception [kind(args)] *)

(** Whether the pickler of the connection accepts a value. *)
Fixpoint picklable (v : pyval) : bool :=
  match v with
  | VTuple items => forallb picklable items
  | VExc _ args => forallb picklable args
  | VOpaque _ _ _ => false
  | _ => true
  end.

(** Python truth value, as tested by [if x:]. *)
Definition truthy (v : pyval) : bool :=
  match v with
  | VNone => false
  | VBool b => b
  | VInt n => negb (n =? 0)%Z
  | VStr s => negb (String.length s =? 0)%nat
  | VTuple items => negb (List.length items =? 0)%nat
  | VExc _ _ => true
  | VOpaque _ _ _ => true
  | VOneWay _ _ _ => true
  end.

Definition is_exception (v : pyval) : bool :=
  match v with VExc _ _ => true | _ => false end.

Definition TypeError (msg : string) : pyval := VExc "TypeError" [VStr msg].
Definition ValueError (msg : string) : pyval := VExc "ValueError" [VStr msg].
Definition OSError (msg : string) : pyval := VExc "OSError" [VStr msg].
Definition EOFError : pyval := VExc "EOFError" [].
Definition AttributeError (msg : string) : pyval := VExc "AttributeError" [VStr msg].
Definition PicklingError : pyval := VExc "PicklingError" [VStr "cannot pickle object"].

(** A lock, a socket: the pickler refuses it with a plain error. *)
Definition opaque (tag : nat) : pyval :=
  VOpaque tag "PicklingError" [VStr "cannot pickle object"].

(** What the pickler raises for a value it refuses: the complaint of the
    first part it cannot pickle. *)
Fixpoint pickle_complaint (v : pyval) : pyval :=
  match v with
  | VOpaque _ kind args => VExc kind args
  | VTuple items =>
      (fix first (l : list pyval) : pyval :=
         match l with
         | [] => PicklingError
         | x :: rest => if picklable x then first rest else pickle_complaint x
         end) items
  | VExc _ args =>
      (fix first (l : list pyval) : pyval :=
         match l with
         | [] => PicklingError
         | x :: rest => if picklable x then first rest else pickle_complaint x
         end) args
  | _ => PicklingError
  end.

(** Whether the receiving process can rebuild a pickled value. *)
Fixpoint loadable (v : pyval) : bool :=
  match v with
  | VTuple items => forallb loadable items
  | VExc _ args => forallb loadable args
  | VOpaque _ _ _ => false
  | VOneWay _ _ _ => false
  | _ => true
  end.

(** What loading raises in the receiving process: the complaint of the
    first part that cannot be rebuilt. *)
Fixpoint load_complaint (v : pyval) : pyval :=
  match v with
  | VOpaque _ kind args => VExc kind args
  | VOneWay _ kind args => VExc kind args
  | VTuple items =>
      (fix first (l : list pyval) : pyval :=
         match l with
         | [] => PicklingError
         | x :: rest => if loadable x then first rest else load_complaint x
         end) items
  | VExc _ args =>
      (fix first (l : list pyval) : pyval :=
         match l with
         | [] => PicklingError
         | x :: rest => if loadable x then first rest else load_complaint x
         end) args
  | _ => PicklingError
  end.

(** ** Results and the state monad shared by both processes *)

Inductive Res (A : Type) : Type :=
| Return (a : A)
| Raise (e : pyval)
| Blocked            (* the call never returns *)
| Killed.            (* the process running the code is gone *)

Arguments Return {A} a.
Arguments Raise {A} e.
Arguments Blocked {A}.
Arguments Killed {A}.

Definition M (S A : Type) : Type := S -> Res A * S.

Definition ret {S A} (a : A) : M S A := fun s => (Return a, s).

Definition bind {S A B} (m : M S A) (k : A -> M S B) : M S B :=
  fun s =>
    match m s with
    | (Return a, s') => k a s'
    | (Raise e, s') => (Raise e, s')
    | (Blocked, s') => (Blocked, s')
    | (Killed, s') => (Killed, s')
    end.

Definition raise {S A} (e : pyval) : M S A := fun s => (Raise e, s).

Notation "x <- m ;; k" := (bind m (fun x => k))
  (at level 61, m at next level, right associativity).
Notation "m ;; k" := (bind m (fun _ => k))
  (at level 61, right associativity).

Definition when {S} (c : bool) (m : M S unit) : M S unit :=
  if c then m else ret tt.

(** [try: body / except: handler e]: a bare [except] catches every exception. *)
Definition try_except {S A} (body : M S A) (handler : pyval -> M S A) : M S A :=
  fun s =>
    match body s with
    | (Raise e, s') => handler e s'
    | r => r
    end.

(** [try: body / finally: fin]: [fin] runs on return and on raise; an
    exception of [fin] replaces the pending outcome. *)
Definition try_finally {S A} (body : M S A) (fin : M S unit) : M S A :=
  fun s =>
    match body s with
    | (Return a, s') =>
        match fin s' with
        | (Return _, s'') => (Return a, s'')
        | (Raise e, s'') => (Raise e, s'')
        | (Blocked, s'') => (Blocked, s'')
        | (Killed, s'') => (Killed, s'')
        end
    | (Raise e, s') =>
        match fin s' with
        | (Return _, s'') => (Raise e, s'')
        | (Raise e', s'') => (Raise e', s'')
        | (Blocked, s'') => (Blocked, s'')
        | (Killed, s'') => (Killed, s'')
        end
    | r => r
    end.

(** ** The computation run in the child *)

Inductive Outcome : Type :=
| Returns (v : pyval)
| Raises (kind : string) (args : list pyval)
| NeverReturns                 (* loops or sleeps forever *)
| Dies.                        (* the process is killed from outside, or exits without unwinding *)

Record Behaviour : Type := { takes : Q; outcome : Outcome }.

Definition Func : Type := list pyval -> list (string * pyval) -> Behaviour.

(** ** The child side: [_target] *)

Module Child.

Record St : Type := {
  now : Q;                        (* the clock of the child *)
  sent : list (Q * pyval);        (* what was written to the pipe, and when *)
  closed : bool                   (* [child_conn] closed *)
}.

(** [child_conn.send(obj)]: check the handle, pickle, write. *)
Definition send (obj : pyval) : M St unit :=
  fun s =>
    if closed s then (Raise (OSError "handle is closed"), s)
    else if picklable obj
         then (Return tt, {| now := now s; sent := sent s ++ [(now s, obj)]; closed := closed s |})
         else (Raise (pickle_complaint obj), s).

(** [child_conn.close()] *)
Definition close : M St unit :=
  fun s => (Return tt, {| now := now s; sent := sent s; closed := true |}).

(** The call of [function] on [args] and [kwargs]. *)
Definition call (function : Func) (args : list pyval) (kwargs : list (string * pyval))
  : M St pyval :=
  fun s =>
    let b := function args kwargs in
    let s' := {| now := now s + takes b; sent := sent s; closed := closed s |} in
    match outcome b with
    | Returns v => (Return v, s')
    | Raises kind a => (Raise (VExc kind a), s')
    | NeverReturns => (Blocked, s)
    | Dies => (Killed, s')
    end.

Definition _target (dec_hard_timeout : bool) (function : Func)
           (args : list pyval) (kwargs : list (string * pyval)) : M St unit :=
  try_finally
    (try_except
       (when (negb dec_hard_timeout) (send (VStr "started")) ;;
        result <- call function args kwargs ;;
        send (VTuple [VBool false; result]))
       (fun exc_info_1 =>
          send (VTuple [VBool true; exc_info_1])))
    close.

Definition boot (t : Q) : St := {| now := t; sent := []; closed := false |}.

(** The names that [_target] binds by position. *)
Definition target_params : list string := ["child_conn"; "dec_hard_timeout"; "function"].

(** Whether the keyword arguments leave those names alone. *)
Definition binds (kwargs : list (string * pyval)) : bool :=
  forallb (fun kv => negb (existsb (String.eqb (fst kv)) target_params)) kwargs.

(** The call of [_target] made by [Process.run], with [args] after the
    three leading arguments and [kwargs] as keywords: a keyword named like
    one of the first three parameters is a [TypeError] before the body of
    [_target] is entered. *)
Definition main (dec_hard_timeout : bool) (function : Func)
           (args : list pyval) (kwargs : list (string * pyval)) : M St unit :=
  if binds kwargs
  then _target dec_hard_timeout function args kwargs
  else raise (TypeError "_target() got multiple values for argument").

End Child.

(** ** The parent side: the class [Timeout] *)

(** What the platform answers: [sys.version_info], the helpers
    [is_system_windows] and [is_in_main_thread] of [wrap_helper], and how long
    the operating system takes to start and to kill a process. *)
Record Env : Type := {
  version_info : N * N;         (* major, minor *)
  system_windows : bool;
  in_main_thread : bool;
  spawn_latency : Q;            (* from [start()] to the first instruction of [_target] *)
  spawn_fails : bool;           (* the child dies before it runs [_target] *)
  kill_latency : Q;             (* from [terminate()] to the death of the child *)
  exit_latency : Q              (* from the last statement of the child to the end of its process *)
}.

(** The arguments of the constructor. *)
Record Config : Type := {
  function : Func;
  timeout_exception : string;
  exception_message : string;
  dec_timeout : option Q;       (* [None], or seconds *)
  dec_hard_timeout : bool
}.

(** A [multiprocess.Process] object and the fate of the process behind it. *)
Record Process : Type := {
  p_hard : bool;                       (* args of the target *)
  p_function : Func;
  p_args : list pyval;
  p_kwargs : list (string * pyval);
  daemon : bool;
  started : bool;
  exits_at : option Q;                 (* when the child ends; [None]: never *)
  terminated : bool;                   (* [terminate()] was called *)
  reaped : bool                        (* a [join] saw the child end *)
}.

(** A [Connection] object of the parent. *)
Record Connection : Type := { conn_closed : bool }.

Inductive Event : Type :=
| EvPipe
| EvProcess
| EvDaemon (b : bool)
| EvStart
| EvRecv (msg : pyval)
| EvPoll (timeout : option Q) (ready : bool)
| EvIsAlive (alive : bool)
| EvTerminate
| EvJoin (timeout : option Q)
| EvCloseRead
| EvRaiseException (kind : string) (msg : string).

Record State : Type := {
  cfg : Config;
  process : option Process;            (* [self.__process] *)
  parent_conn : option Connection;     (* [self.__parent_conn], the read end *)
  child_conn : option Connection;      (* [self.__child_conn], the parent's handle on the write end *)
  env : Env;
  clock : Q;
  inbox : list (Q * pyval);            (* written by the child, not yet read; with the time of writing *)
  child_end_closed : option Q;         (* when the child's copy of the write end is closed *)
  trace : list Event                   (* what the parent did, oldest first *)
}.

(** [__init__].  The attributes [__name__] and [__doc__], copied from the
    function, play no part in a call and are left out. *)
Definition __init__ (function : Func) (timeout_exception exception_message : string)
           (dec_timeout : option Q) (dec_hard_timeout : bool) (e : Env) (t0 : Q) : State :=
  {| cfg := {| function := function; timeout_exception := timeout_exception;
               exception_message := exception_message; dec_timeout := dec_timeout;
               dec_hard_timeout := dec_hard_timeout |};
     process := None; parent_conn := None; child_conn := None;
     env := e; clock := t0; inbox := []; child_end_closed := None; trace := [] |}.

Definition set_process (p : option Process) (s : State) : State :=
  {| cfg := cfg s; process := p; parent_conn := parent_conn s; child_conn := child_conn s;
     env := env s; clock := clock s; inbox := inbox s;
     child_end_closed := child_end_closed s; trace := trace s |}.

Definition set_conns (r w : option Connection) (s : State) : State :=
  {| cfg := cfg s; process := process s; parent_conn := r; child_conn := w;
     env := env s; clock := clock s; inbox := inbox s;
     child_end_closed := child_end_closed s; trace := trace s |}.

Definition set_clock (t : Q) (s : State) : State :=
  {| cfg := cfg s; process := process s; parent_conn := parent_conn s; child_conn := child_conn s;
     env := env s; clock := t; inbox := inbox s;
     child_end_closed := child_end_closed s; trace := trace s |}.

Definition set_stream (msgs : list (Q * pyval)) (c : option Q) (s : State) : State :=
  {| cfg := cfg s; process := process s; parent_conn := parent_conn s; child_conn := child_conn s;
     env := env s; clock := clock s; inbox := msgs;
     child_end_closed := c; trace := trace s |}.

Definition log (ev : Event) (s : State) : State :=
  {| cfg := cfg s; process := process s; parent_conn := parent_conn s; child_conn := child_conn s;
     env := env s; clock := clock s; inbox := inbox s;
     child_end_closed := child_end_closed s; trace := trace s ++ [ev] |}.

Definition later (a b : Q) : Q := if Qle_bool a b then b else a.

(** A timeout below zero polls like zero. *)
Definition clamp (d : Q) : Q := if Qle_bool d 0 then 0 else d.

Definition no_attribute (name : string) : pyval :=
  AttributeError ("'NoneType' object has no attribute '" ++ name ++ "'")%string.

(** *** The pipe *)

(** [self.__parent_conn, self.__child_conn = multiprocessing.Pipe(duplex=False)]:
    a fresh one-way pipe; the parent holds a handle on each end. *)
Definition Pipe : M State unit :=
  fun s =>
    let fresh := Some {| conn_closed := false |} in
    (Return tt, log EvPipe (set_stream [] None (set_conns fresh fresh s))).

(** When the reader sees the end of the stream: once every handle on the
    write end is closed, the parent's own handle included. *)
Definition eof_at (s : State) : option Q :=
  match child_conn s with
  | Some w => if conn_closed w then child_end_closed s else None
  | None => child_end_closed s
  end.

(** [self.__parent_conn.recv()]: blocks until a message is there, reads it
    off the pipe and rebuilds the object; what cannot be rebuilt raises. *)
Definition recv : M State pyval :=
  fun s =>
    match parent_conn s with
    | None => (Raise (no_attribute "recv"), s)
    | Some r =>
        if conn_closed r then (Raise (OSError "handle is closed"), s)
        else
          match inbox s with
          | (t, msg) :: rest =>
              if loadable msg
              then (Return msg,
                    log (EvRecv msg)
                        (set_stream rest (child_end_closed s) (set_clock (later (clock s) t) s)))
              else (Raise (load_complaint msg),
                    set_stream rest (child_end_closed s) (set_clock (later (clock s) t) s))
          | [] =>
              match eof_at s with
              | Some t => (Raise EOFError, set_clock (later (clock s) t) s)
              | None => (Blocked, s)
              end
          end
    end.

(** When the read end becomes readable: a message, or the end of the stream. *)
Definition readable_at (s : State) : option Q :=
  match inbox s with
  | (t, _) :: _ => Some t
  | [] => eof_at s
  end.

(** [self.__parent_conn.poll(timeout)]: [None] waits without bound, a number
    waits that long at most (zero: not at all); nothing is consumed. *)
Definition poll (timeout : option Q) : M State bool :=
  fun s =>
    match parent_conn s with
    | None => (Raise (no_attribute "poll"), s)
    | Some r =>
        if conn_closed r then (Raise (OSError "handle is closed"), s)
        else
          match timeout with
          | None =>
              match readable_at s with
              | Some t => (Return true, log (EvPoll timeout true) (set_clock (later (clock s) t) s))
              | None => (Blocked, s)
              end
          | Some d =>
              let deadline := clock s + clamp d in
              match readable_at s with
              | Some t =>
                  if Qle_bool t deadline
                  then (Return true, log (EvPoll timeout true) (set_clock (later (clock s) t) s))
                  else (Return false, log (EvPoll timeout false) (set_clock deadline s))
              | None => (Return false, log (EvPoll timeout false) (set_clock deadline s))
              end
          end
    end.

(** [self.__parent_conn.close()]: closing twice is allowed. *)
Definition close_parent_conn : M State unit :=
  fun s =>
    match parent_conn s with
    | None => (Raise (no_attribute "close"), s)
    | Some _ =>
        (Return tt, log EvCloseRead (set_conns (Some {| conn_closed := true |}) (child_conn s) s))
    end.

(** *** The child process *)

(** What the child writes and when it ends, had nobody killed it.  A child
    whose code returns or raises ends [exit_latency] later; a child that is
    killed is gone at once. *)
Definition run_child (p : Process) (e : Env) (t : Q) : list (Q * pyval) * option Q :=
  if spawn_fails e then ([], Some (t + spawn_latency e))
  else
    match Child.main (p_hard p) (p_function p) (p_args p) (p_kwargs p)
                     (Child.boot (t + spawn_latency e)) with
    | (Blocked, c) => (Child.sent c, None)
    | (Killed, c) => (Child.sent c, Some (Child.now c))
    | (_, c) => (Child.sent c, Some (Child.now c + exit_latency e))
    end.

Definition upd_process (p : Process) (d st tm rp : bool) (x : option Q) : Process :=
  {| p_hard := p_hard p; p_function := p_function p; p_args := p_args p;
     p_kwargs := p_kwargs p; daemon := d; started := st; exits_at := x;
     terminated := tm; reaped := rp |}.

(** [self.__process = multiprocessing.Process(target=_target, args=args, kwargs=kwargs)]
    with [args = (self.__child_conn, self.dec_hard_timeout, self.function) + args]:
    the three leading arguments are kept apart here, and [kwargs] are bound
    when the child calls [_target] (see [Child.main]). *)
Definition new_Process (hard : bool) (f : Func) (args : list pyval)
           (kwargs : list (string * pyval)) : M State unit :=
  fun s =>
    let p := {| p_hard := hard; p_function := f; p_args := args; p_kwargs := kwargs;
                daemon := false; started := false; exits_at := None;
                terminated := false; reaped := false |} in
    (Return tt, log EvProcess (set_process (Some p) s)).

(** [self.__process.daemon = b] *)
Definition set_daemon (b : bool) : M State unit :=
  fun s =>
    match process s with
    | None => (Raise (no_attribute "daemon"), s)
    | Some p =>
        if started p then (Raise (VExc "AssertionError" [VStr "process has already started"]), s)
        else (Return tt,
              log (EvDaemon b)
                  (set_process (Some (upd_process p b (started p) (terminated p) (reaped p) (exits_at p))) s))
    end.

(** [self.__process.start()] *)
Definition start : M State unit :=
  fun s =>
    match process s with
    | None => (Raise (no_attribute "start"), s)
    | Some p =>
        if started p then (Raise (VExc "AssertionError" [VStr "cannot start a process twice"]), s)
        else
          let '(msgs, x) := run_child p (env s) (clock s) in
          (Return tt,
           log EvStart
               (set_stream (inbox s ++ msgs) x
                  (set_process (Some (upd_process p (daemon p) true (terminated p) (reaped p) x)) s)))
    end.

Definition alive_at (p : Process) (t : Q) : bool :=
  started p &&
  match exits_at p with
  | Some x => negb (Qle_bool x t)
  | None => true
  end.

(** [self.__process.is_alive()] *)
Definition is_alive : M State bool :=
  fun s =>
    match process s with
    | None => (Raise (no_attribute "is_alive"), s)
    | Some p => let a := alive_at p (clock s) in (Return a, log (EvIsAlive a) s)
    end.

Definition written_by (t : Q) (m : Q * pyval) : bool := Qle_bool (fst m) t.

(** [self.__process.terminate()]: the child ends [kill_latency] later, unless
    it ends before by itself; what it had not written by then is never written. *)
Definition terminate : M State unit :=
  fun s =>
    match process s with
    | None => (Raise (no_attribute "terminate"), s)
    | Some p =>
        if negb (started p) then (Raise (no_attribute "terminate"), s)
        else
          let k := clock s + kill_latency (env s) in
          let dies_before :=
            match exits_at p with Some x => Qle_bool x k | None => false end in
          if dies_before
          then (Return tt,
                log EvTerminate
                    (set_process (Some (upd_process p (daemon p) true true (reaped p) (exits_at p))) s))
          else (Return tt,
                log EvTerminate
                    (set_stream (filter (written_by k) (inbox s)) (Some k)
                       (set_process (Some (upd_process p (daemon p) true true (reaped p) (Some k))) s)))
    end.

(** [self.__process.join(timeout=d)]: waits for the end of the child, [d] at most. *)
Definition join (d : Q) : M State unit :=
  fun s =>
    match process s with
    | None => (Raise (no_attribute "join"), s)
    | Some p =>
        if negb (started p)
        then (Raise (VExc "AssertionError" [VStr "can only join a started process"]), s)
        else
          let deadline := clock s + clamp d in
          match exits_at p with
          | Some x =>
              if Qle_bool x deadline
              then (Return tt,
                    log (EvJoin (Some d))
                        (set_clock (later (clock s) x)
                           (set_process (Some (upd_process p (daemon p) true (terminated p) true (exits_at p))) s)))
              else (Return tt, log (EvJoin (Some d)) (set_clock deadline s))
          | None => (Return tt, log (EvJoin (Some d)) (set_clock deadline s))
          end
    end.

(** *** Statements of the language *)

Definition gets {A} (f : State -> A) : M State A := fun s => (Return (f s), s).

(** [a, b = v] *)
Definition unpack2 (v : pyval) : M State (pyval * pyval) :=
  match v with
  | VTuple [a; b] => ret (a, b)
  | VTuple items =>
      raise (ValueError (if (List.length items <? 2)%nat
                         then "not enough values to unpack"
                         else "too many values to unpack"))
  | VStr (String a (String b EmptyString)) =>
      ret (VStr (String a EmptyString), VStr (String b EmptyString))
  | VStr s =>
      raise (ValueError (if (String.length s <? 2)%nat
                         then "not enough values to unpack"
                         else "too many values to unpack"))
  | _ => raise (TypeError "cannot unpack non-iterable object")
  end.

(** [raise v] *)
Definition raise_stmt {A} (v : pyval) : M State A :=
  if is_exception v then raise v
  else raise (TypeError "exceptions must derive from BaseException").

(** [sys.version_info < (major, minor)]: the tuples are compared item by
    item, and [version_info] is the longer one. *)
Definition version_lt (v bound : N * N) : bool :=
  (fst v <? fst bound)%N || ((fst v =? fst bound)%N && (snd v <? snd bound)%N).

(** Modelled from the spec: [raise_exception] of [wrap_helper], which is not
    part of the file; the Supervisor "raises the caller-configured timeout
    failure carrying the caller-configured message". *)
Definition raise_exception {A} (exception exception_message : string) : M State A :=
  fun s =>
    (Raise (VExc exception [VStr exception_message]),
     log (EvRaiseException exception exception_message) s).

(** *** The methods *)

Definition wait_until_process_started : M State unit :=
  recv ;; ret tt.

Definition cancel : M State unit :=
  alive <- is_alive ;;
  when alive terminate ;;
  join 1 ;;
  close_parent_conn ;;
  exception <- gets (fun s => timeout_exception (cfg s)) ;;
  message <- gets (fun s => exception_message (cfg s)) ;;
  raise_exception exception message.

Definition value : M State pyval :=
  msg <- recv ;;
  pair <- unpack2 msg ;;
  let '(exception_occured, result) := pair in
  join 1 ;;
  close_parent_conn ;;
  if truthy exception_occured then raise_stmt result else ret result.

Definition daemon_flag (e : Env) : bool :=
  if version_lt (version_info e) (3, 0)%N && system_windows e && negb (in_main_thread e)
  then false
  else true.

(** Lines 33 to 48 of [__call__]: everything up to the result of [poll]. *)
Definition call_until_poll (args : list pyval) (kwargs : list (string * pyval)) : M State bool :=
  Pipe ;;
  hard <- gets (fun s => dec_hard_timeout (cfg s)) ;;
  f <- gets (fun s => function (cfg s)) ;;
  new_Process hard f args kwargs ;;
  e <- gets env ;;
  set_daemon (daemon_flag e) ;;
  start ;;
  when (negb hard) wait_until_process_started ;;
  timeout <- gets (fun s => dec_timeout (cfg s)) ;;
  poll timeout.

Definition __call__ (args : list pyval) (kwargs : list (string * pyval)) : M State pyval :=
  Pipe ;;
  hard <- gets (fun s => dec_hard_timeout (cfg s)) ;;
  f <- gets (fun s => function (cfg s)) ;;
  new_Process hard f args kwargs ;;
  e <- gets env ;;
  (if version_lt (version_info e) (3, 0)%N && system_windows e && negb (in_main_thread e)
   then set_daemon false
   else set_daemon true) ;;
  start ;;
  when (negb hard) wait_until_process_started ;;
  timeout <- gets (fun s => dec_timeout (cfg s)) ;;
  ready <- poll timeout ;;
  if ready then value else (cancel ;; ret VNone).

Import Child.

(** * Vocabulary of the statements *)

(** ** The child side *)

(** The start signal, when the mode sends one. *)
Definition start_signal (hard : bool) (t : Q) : list (Q * pyval) :=
  if hard then [] else [(t, VStr "started")].

Definition done (t : Q) (msgs : list (Q * pyval)) : St :=
  {| now := t; sent := msgs; closed := true |}.

(** The messages of a run, without their times. *)
Definition messages (r : Res unit * St) : list pyval := map snd (sent (snd r)).

Definition started_msg (hard : bool) : list pyval :=
  if hard then [] else [VStr "started"].

(** The adapter reports the failure: it returns, and its only message
    after the start signal is [(True, failure)]. *)
Definition reports_failure (hard : bool) (failure : pyval) (r : Res unit * St) : Prop :=
  fst r = Return tt /\ messages r = started_msg hard ++ [VTuple [VBool true; failure]].

(** Whatever way [_target] leaves, [child_conn] is closed. *)
Definition closed_on_exit (r : Res unit * St) : Prop :=
  match fst r with
  | Return _ | Raise _ => closed (snd r) = true
  | Blocked | Killed => True
  end.

(** The Outcome Message that [_target] writes for an outcome of the
    computation, when it writes one: the result, the failure, or the error
    of the [send] of a result that cannot be pickled. *)
Definition outcome_message (o : Outcome) : option pyval :=
  match o with
  | Returns v =>
      if picklable v then Some (VTuple [VBool false; v])
      else if picklable (pickle_complaint v)
           then Some (VTuple [VBool true; pickle_complaint v])
           else None
  | Raises kind a =>
      if picklable (VExc kind a) then Some (VTuple [VBool true; VExc kind a]) else None
  | NeverReturns => None
  | Dies => None
  end.

(** What leaves [_target] when its handler cannot send either. *)
Definition escaping (o : Outcome) : pyval :=
  match o with
  | Returns v => pickle_complaint (pickle_complaint v)
  | Raises kind a => pickle_complaint (VExc kind a)
  | NeverReturns => PicklingError
  | Dies => PicklingError
  end.

(** A computation raising an exception that holds a lock. *)
Definition raises_unpicklable : Func :=
  fun _ _ => {| takes := 1; outcome := Raises "LockError" [opaque 0] |}.

Definition raises_value_error : Func :=
  fun _ _ => {| takes := 1; outcome := Raises "ValueError" [VStr "bad"] |}.

Definition returns_lock : Func :=
  fun _ _ => {| takes := 1; outcome := Returns (opaque 7) |}.

(** An object whose pickling fails with an error that holds a lock. *)
Definition stubborn : pyval := VOpaque 7 "HolderError" [opaque 8].

Definition returns_stubborn : Func :=
  fun _ _ => {| takes := 1; outcome := Returns stubborn |}.

(** ** The parent side *)

Definition open_conn : option Connection := Some {| conn_closed := false |}.
Definition closed_conn : option Connection := Some {| conn_closed := true |}.

(** The [Process] object built by [__call__], before [start()]. *)
Definition fresh_process (args : list pyval) (kwargs : list (string * pyval)) (s : State)
  : Process :=
  {| p_hard := dec_hard_timeout (cfg s); p_function := function (cfg s);
     p_args := args; p_kwargs := kwargs; daemon := daemon_flag (env s);
     started := false; exits_at := None; terminated := false; reaped := false |}.

Definition child_run (args : list pyval) (kwargs : list (string * pyval)) (s : State)
  : list (Q * pyval) * option Q :=
  run_child (fresh_process args kwargs s) (env s) (clock s).

Definition spawn_events (s : State) : list Event :=
  [EvPipe; EvProcess; EvDaemon (daemon_flag (env s)); EvStart].

(** The [Process] object after [start()]. *)
Definition spawned (args : list pyval) (kwargs : list (string * pyval)) (s : State)
  : Process :=
  upd_process (fresh_process args kwargs s) (daemon_flag (env s))
              true false false (snd (child_run args kwargs s)).

(** The state right after [self.__process.start()] (line 45). *)
Definition after_start (args : list pyval) (kwargs : list (string * pyval)) (s : State)
  : State :=
  {| cfg := cfg s;
     process := Some (spawned args kwargs s);
     parent_conn := open_conn;
     child_conn := open_conn;
     env := env s;
     clock := clock s;
     inbox := fst (child_run args kwargs s);
     child_end_closed := snd (child_run args kwargs s);
     trace := trace s ++ spawn_events s |}.

(** Lines 46 to 51 of [__call__]. *)
Definition wait_and_collect : M State pyval :=
  hard <- gets (fun s => dec_hard_timeout (cfg s)) ;;
  when (negb hard) wait_until_process_started ;;
  timeout <- gets (fun s => dec_timeout (cfg s)) ;;
  ready <- poll timeout ;;
  if ready then value else (cancel ;; ret VNone).

(** Lines 46 to 48 of [__call__]. *)
Definition wait_and_poll : M State bool :=
  hard <- gets (fun s => dec_hard_timeout (cfg s)) ;;
  when (negb hard) wait_until_process_started ;;
  timeout <- gets (fun s => dec_timeout (cfg s)) ;;
  poll timeout.

(** The objects of an invocation in flight: both handles of the parent open,
    the child started. *)
Definition running (s : State) : Prop :=
  parent_conn s = open_conn /\ child_conn s = open_conn /\
  exists p, process s = Some p /\ started p = true.

(** What [recv] and [poll] leave alone. *)
Definition same_objects (s s' : State) : Prop :=
  cfg s' = cfg s /\ env s' = env s /\ process s' = process s /\
  parent_conn s' = parent_conn s /\ child_conn s' = child_conn s.

(** The value of [raise v]. *)
Definition raised (v : pyval) : pyval :=
  if is_exception v then v else TypeError "exceptions must derive from BaseException".

Definition cancel_events (alive : bool) (kind msg : string) : list Event :=
  [EvIsAlive alive] ++ (if alive then [EvTerminate] else []) ++
  [EvJoin (Some 1); EvCloseRead; EvRaiseException kind msg].

(** ** Concrete invocations *)

Module Scenario.

(** Python 3 on Linux, main thread; a process starts in half a second and
    dies a tenth of a second after [terminate()]. *)
Definition linux : Env :=
  {| version_info := (3, 11)%N; system_windows := false; in_main_thread := true;
     spawn_latency := 1 # 2; spawn_fails := false; kill_latency := 1 # 10;
     exit_latency := 1 # 100 |}.

(** Python 2.7 on Windows, called from a worker thread. *)
Definition legacy_windows_thread : Env :=
  {| version_info := (2, 7)%N; system_windows := true; in_main_thread := false;
     spawn_latency := 1 # 2; spawn_fails := false; kill_latency := 1 # 10;
     exit_latency := 1 # 100 |}.

Definition sleep_then (d : Q) (o : Outcome) : Func :=
  fun _ _ => {| takes := d; outcome := o |}.

Definition supervisor (f : Func) (timeout : option Q) (hard : bool) : State :=
  __init__ f "TimeoutError" "timed out" timeout hard linux 0.

(** [sleep_then_return(0.1, "ok")] under a soft budget of one second. *)
Definition quick_ok : State :=
  supervisor (sleep_then (1 # 10) (Returns (VStr "ok"))) (Some 1) false.

(** [sleep_then_return(5, "ok")] under a soft budget of 0.2 seconds. *)
Definition slow_ok : State :=
  supervisor (sleep_then 5 (Returns (VStr "ok"))) (Some (2 # 10)) false.

(** [raise_value_error("bad")] under a soft budget of one second. *)
Definition quick_bad : State :=
  supervisor (sleep_then (1 # 10) (Raises "ValueError" [VStr "bad"])) (Some 1) false.

(** The same five seconds of work under a budget of zero. *)
Definition slow_zero : State :=
  supervisor (sleep_then 5 (Returns (VStr "ok"))) (Some 0) false.

(** Five seconds of work with no budget. *)
Definition slow_unbounded : State :=
  supervisor (sleep_then 5 (Returns (VStr "ok"))) None false.

(** Hard mode; the child is killed from outside before it writes anything. *)
Definition killed_hard : State :=
  supervisor (sleep_then (1 # 10) Dies) (Some 1) true.

(** Hard mode; the result is written after the budget but before the
    child is dead. *)
Definition late_hard : State :=
  supervisor (sleep_then (6 # 10) (Returns (VStr "ok"))) (Some 1) true.

(** The same work in soft mode. *)
Definition late_soft : State :=
  supervisor (sleep_then (6 # 10) (Returns (VStr "ok"))) (Some 1) false.

End Scenario.

Definition quick_ok_polled : State :=
  Eval vm_compute in snd (call_until_poll [] [] Scenario.quick_ok).

Definition quick_bad_polled : State :=
  Eval vm_compute in snd (call_until_poll [] [] Scenario.quick_bad).

Definition late_hard_polled : State :=
  Eval vm_compute in snd (call_until_poll [] [] Scenario.late_hard).

(** An exception that carries an object which pickles but cannot be rebuilt
    (an instance of a class whose constructor takes two arguments while its
    reduction keeps one): the exception pickles, and loading it in the parent
    raises the [TypeError] of that constructor. *)
Definition two_arg_error : pyval :=
  VExc "TwoArgError"
       [VOneWay 0 "TypeError" [VStr "__init__() missing 1 required positional argument"]].

(** A computation raising it under a soft budget of one second. *)
Definition one_way_failure : State :=
  Scenario.supervisor
    (Scenario.sleep_then (1 # 10)
       (Raises "TwoArgError"
               [VOneWay 0 "TypeError"
                        [VStr "__init__() missing 1 required positional argument"]]))
    (Some 1) false.

Definition one_way_failure_polled : State :=
  Eval vm_compute in snd (call_until_poll [] [] one_way_failure).

(** ** Streams and exits *)

(** Lines 48 to 51 of [__call__]. *)
Definition poll_and_collect (timeout : option Q) : M State pyval :=
  ready <- poll timeout ;;
  if ready then value else (cancel ;; ret VNone).

Definition both_ends_closed (s : State) : Prop :=
  parent_conn s = closed_conn /\ child_conn s = closed_conn.

Definition timeout_failure (s : State) : pyval :=
  VExc (timeout_exception (cfg s)) [VStr (exception_message (cfg s))].

(** An invocation that came to an end. *)
Definition exited {A} (r : Res A) : Prop :=
  match r with
  | Return _ | Raise _ => True
  | Blocked | Killed => False
  end.

(** Whether the parent can rebuild the Outcome Message that the child
    writes for an outcome of the computation. *)
Definition reply_loads (o : Outcome) : bool :=
  match outcome_message o with
  | Some m => loadable m
  | None => true
  end.

(** ** A whole invocation *)

(** The state after the start signal was received at [t]. *)
Definition after_signal (s : State) (t : Q) (rest : list (Q * pyval)) : State :=
  log (EvRecv (VStr "started"))
      (set_stream rest (child_end_closed s) (set_clock (later (clock s) t) s)).

(** A state about to run line 48: the invocation is in flight and the pipe
    holds nothing, or one Outcome Message, written [exit_latency] before the
    child ends. *)
Definition at_poll (s0 s : State) : Prop :=
  running s /\ cfg s = cfg s0 /\ env s = env s0 /\
  (inbox s = [] \/
   exists t b v p,
     inbox s = [(t, VTuple [VBool b; v])] /\
     process s = Some p /\ exits_at p = Some (t + exit_latency (env s0))).

(** Whether [poll] finds a message written at [t] when it starts at [c]. *)
Definition ready_by (timeout : option Q) (c t : Q) : bool :=
  match timeout with
  | None => true
  | Some d => Qle_bool t (c + clamp d)
  end.

(** The result when no Outcome Message ever comes. *)
Definition no_outcome (timeout : option Q) (failure : pyval) : Res pyval :=
  match timeout with
  | None => Blocked
  | Some _ => Raise failure
  end.

(** What lines 48 to 51 give for the messages in the pipe. *)
Definition settle (timeout : option Q) (failure : pyval) (c : Q) (msgs : list (Q * pyval))
  : Res pyval :=
  match msgs with
  | (t, VTuple [flag; payload]) :: _ =>
      if ready_by timeout c t
      then if loadable (VTuple [flag; payload])
           then (if truthy flag then Raise (raised payload) else Return payload)
           else Raise (load_complaint (VTuple [flag; payload]))
      else Raise failure
  | _ => no_outcome timeout failure
  end.

(** What lines 48 to 51 do for the messages in the pipe; [alive] is the
    answer of [is_alive()] when [cancel] runs. *)
Definition settle_events (timeout : option Q) (kind msg : string) (alive : bool) (c : Q)
           (msgs : list (Q * pyval)) : list Event :=
  match msgs with
  | (t, m) :: _ =>
      if ready_by timeout c t
      then EvPoll timeout true ::
           (if loadable m then [EvRecv m; EvJoin (Some 1); EvCloseRead] else [])
      else EvPoll timeout false :: cancel_events alive kind msg
  | [] =>
      match timeout with
      | None => []
      | Some _ => EvPoll timeout false :: cancel_events alive kind msg
      end
  end.

(** Whether [value] finds a message that it cannot rebuild. *)
Definition unread (timeout : option Q) (c : Q) (msgs : list (Q * pyval)) : bool :=
  match msgs with
  | (t, m) :: _ => ready_by timeout c t && negb (loadable m)
  | [] => false
  end.

(** The time that counts against the budget: the work, and in hard mode
    the start of the process as well. *)
Definition charged (s : State) (args : list pyval) (kwargs : list (string * pyval)) : Q :=
  if dec_hard_timeout (cfg s)
  then spawn_latency (env s) + takes (function (cfg s) args kwargs)
  else takes (function (cfg s) args kwargs).

Definition budget_met (timeout : option Q) (spent : Q) : bool :=
  match timeout with
  | None => true
  | Some d => Qle_bool spent d
  end.

Definition budget_nonneg (timeout : option Q) : Prop :=
  match timeout with
  | None => True
  | Some d => 0 <= d
  end.

(** How [value] and [cancel] leave the child [p] of an invocation: the read
    end is closed, and the child is joined. *)
Definition left_clean (s0 s' : State) (p p' : Process) : Prop :=
  parent_conn s' = closed_conn /\
  (kill_latency (env s0) <= 1 -> exit_latency (env s0) <= 1 ->
   reaped p' = true /\ alive_at p' (clock s') = false) /\
  (exits_at p = None -> terminated p' = true).

(** The time at which line 48 starts. *)
Definition poll_clock (s : State) : Q :=
  if dec_hard_timeout (cfg s)
  then clock s
  else later (clock s) (clock s + spawn_latency (env s)).

(** The result of an invocation, read off the stream of the child: in soft
    mode nothing happens before the first message is there. *)
Definition invocation_result (args : list pyval) (kwargs : list (string * pyval))
           (s0 : State) : Res pyval :=
  if dec_hard_timeout (cfg s0)
  then settle (dec_timeout (cfg s0)) (timeout_failure s0) (clock s0)
              (fst (child_run args kwargs s0))
  else match fst (child_run args kwargs s0) with
       | [] => Blocked
       | _ :: rest =>
           settle (dec_timeout (cfg s0)) (timeout_failure s0) (poll_clock s0) rest
       end.

(** What the Supervisor does after [start()]. *)
Definition invocation_events (args : list pyval) (kwargs : list (string * pyval))
           (s0 : State) (alive : bool) : list Event :=
  if dec_hard_timeout (cfg s0)
  then settle_events (dec_timeout (cfg s0)) (timeout_exception (cfg s0))
                     (exception_message (cfg s0)) alive (clock s0)
                     (fst (child_run args kwargs s0))
  else match fst (child_run args kwargs s0) with
       | [] => []
       | _ :: rest =>
           EvRecv (VStr "started") ::
           settle_events (dec_timeout (cfg s0)) (timeout_exception (cfg s0))
                         (exception_message (cfg s0)) alive (poll_clock s0) rest
       end.

(** Whether the invocation ends in [value] on a message that cannot be
    rebuilt. *)
Definition unread_reply (args : list pyval) (kwargs : list (string * pyval)) (s0 : State)
  : bool :=
  if dec_hard_timeout (cfg s0)
  then unread (dec_timeout (cfg s0)) (clock s0) (fst (child_run args kwargs s0))
  else match fst (child_run args kwargs s0) with
       | [] => false
       | _ :: rest => unread (dec_timeout (cfg s0)) (poll_clock s0) rest
       end.

(** The Outcome Message of the child in the pipe, if the child writes one. *)
Definition reply_stream (args : list pyval) (kwargs : list (string * pyval)) (s0 : State)
  : list (Q * pyval) :=
  match outcome_message (outcome (function (cfg s0) args kwargs)) with
  | Some m =>
      [(clock s0 + spawn_latency (env s0) + takes (function (cfg s0) args kwargs), m)]
  | None => []
  end.

(** The receipt of the start signal, in soft mode. *)
Definition signal_events (hard : bool) : list Event :=
  if hard then [] else [EvRecv (VStr "started")].

(** A computation that leaves no Outcome Message: it never returns, its
    process dies, or what it raises, or the error of sending what it
    returns, cannot be pickled. *)
Definition silent (o : Outcome) : bool :=
  match outcome_message o with
  | Some _ => false
  | None => true
  end.

(** What [value] makes of the Outcome Message of a computation, when the
    computation leaves one. *)
Definition delivered (o : Outcome) : option (Res pyval) :=
  match o with
  | Returns v =>
      if picklable v
      then Some (if loadable v then Return v else Raise (load_complaint v))
      else if picklable (pickle_complaint v)
           then Some (if loadable (pickle_complaint v)
                      then Raise (pickle_complaint v)
                      else Raise (load_complaint (pickle_complaint v)))
           else None
  | Raises kind a =>
      if picklable (VExc kind a)
      then Some (if loadable (VExc kind a)
                 then Raise (VExc kind a)
                 else Raise (load_complaint (VExc kind a)))
      else None
  | NeverReturns => None
  | Dies => None
  end.

(** The events after [start()] in the order of the two modes: in hard mode
    the first is the [poll] and no start signal is received; in soft mode
    the first is the receipt of the start signal and the second the [poll]. *)
Definition hard_order (timeout : option Q) (l : list Event) : Prop :=
  ~ In (EvRecv (VStr "started")) l /\
  (l = [] \/ exists ready rest, l = EvPoll timeout ready :: rest).

Definition soft_order (timeout : option Q) (l : list Event) : Prop :=
  l = [] \/
  exists tail,
    l = EvRecv (VStr "started") :: tail /\
    ~ In (EvRecv (VStr "started")) tail /\
    (tail = [] \/ exists ready rest, tail = EvPoll timeout ready :: rest).

(** A Supervisor used once, and a new one made at the time the first was
    left. *)
Definition late_hard_done : State :=
  Eval vm_compute in snd (__call__ [] [] Scenario.late_hard).

Definition late_hard_fresh : State :=
  __init__ (Scenario.sleep_then (6 # 10) (Returns (VStr "ok"))) "TimeoutError" "timed out"
           (Some 1) true Scenario.linux (clock late_hard_done).

(** A result that is a lock, a failure that holds a lock, and work without
    end, each under a soft budget of one second. *)
Definition lock_result : State :=
  Scenario.supervisor (Scenario.sleep_then (1 # 10) (Returns (opaque 7))) (Some 1) false.

Definition lock_failure : State :=
  Scenario.supervisor (Scenario.sleep_then (1 # 10) (Raises "LockError" [opaque 0]))
                      (Some 1) false.

Definition endless : State :=
  Scenario.supervisor (Scenario.sleep_then 0 NeverReturns) (Some 1) false.

(** A call with a keyword argument named like a parameter of [_target],
    under a hard budget of one second. *)
Definition colliding_kwargs : list (string * pyval) := [("function", VInt 1)].

(** The events that are neither a [join] nor the closing of the read end. *)
Definition before_cleanup (ev : Event) : bool :=
  match ev with
  | EvJoin _ => false
  | EvCloseRead => false
  | _ => true
  end.

(** The trace of an invocation that ended: some events without [join] or
    [close], then one [join(1.0)], then the closing of the read end, then
    nothing, or the call of [raise_exception]. *)
Definition cleanup_last (s0 : State) (before after : list Event) : Prop :=
  exists pre tail,
    after = before ++ pre ++ [EvJoin (Some 1); EvCloseRead] ++ tail /\
    forallb before_cleanup pre = true /\
    (tail = [] \/
     tail = [EvRaiseException (timeout_exception (cfg s0)) (exception_message (cfg s0))]).

(** * Properties *)

(** ** The child adapter *)

Lemma picklable_pair (b : bool) (v : pyval) :
  picklable (VTuple [VBool b; v]) = picklable v.
Proof. cbn. apply andb_true_r. Qed.

Lemma complaint_pair (b : bool) (v : pyval) :
  picklable v = false -> pickle_complaint (VTuple [VBool b; v]) = pickle_complaint v.
Proof. intros H. cbn. rewrite H. reflexivity. Qed.

(** Every run of [_target], by the outcome of the computation. *)
Lemma target_run (hard : bool) (f : Func) args kwargs (t : Q) :
  _target hard f args kwargs (boot t) =
  let b := f args kwargs in
  let t' := t + takes b in
  let pre := start_signal hard t in
  match outcome b with
  | NeverReturns => (Blocked, {| now := t; sent := pre; closed := false |})
  | Dies => (Killed, {| now := t'; sent := pre; closed := false |})
  | o =>
      match outcome_message o with
      | Some m => (Return tt, done t' (pre ++ [(t', m)]))
      | None => (Raise (escaping o), done t' pre)
      end
  end.
Proof.
  cbv zeta.
  destruct (outcome (f args kwargs)) as [v | kind a | | ] eqn:O;
    unfold outcome_message, escaping.
  - destruct (picklable v) eqn:P; [|destruct (picklable (pickle_complaint v)) eqn:P'];
      unfold _target, try_finally, try_except, bind, when, call, send, close, boot,
        start_signal, done;
      destruct hard; repeat (cbn; rewrite ?O, ?P, ?P'); reflexivity.
  - destruct (picklable (VExc kind a)) eqn:P; cbn in P;
      unfold _target, try_finally, try_except, bind, when, call, send, close, boot,
        start_signal, done;
      destruct hard; repeat (cbn; rewrite ?O, ?P); reflexivity.
  - unfold _target, try_finally, try_except, bind, when, call, send, close, boot,
      start_signal, done;
      destruct hard; repeat (cbn; rewrite ?O); reflexivity.
  - unfold _target, try_finally, try_except, bind, when, call, send, close, boot,
      start_signal, done;
      destruct hard; repeat (cbn; rewrite ?O); reflexivity.
Qed.

Lemma messages_start_signal hard t : map snd (start_signal hard t) = started_msg hard.
Proof. destruct hard; reflexivity. Qed.

Lemma target_closed_on_exit hard f args kwargs t :
  closed_on_exit (_target hard f args kwargs (boot t)).
Proof.
  rewrite target_run. unfold closed_on_exit. cbv zeta.
  destruct (outcome (f args kwargs)) as [v | kind a | | ]; try exact I;
    destruct (outcome_message _); reflexivity.
Qed.

(** C4, as stated, fails: the computation raises, the handler's own [send]
    raises in turn, no Outcome Message is written and the exception leaves
    [_target]. *)
Lemma target_unpicklable_failure_escapes :
  outcome (raises_unpicklable [] []) = Raises "LockError" [opaque 0] /\
  ~ reports_failure true (VExc "LockError" [opaque 0])
      (_target true raises_unpicklable [] [] (boot 0)) /\
  fst (_target true raises_unpicklable [] [] (boot 0)) = Raise PicklingError /\
  messages (_target true raises_unpicklable [] [] (boot 0)) = [].
Proof.
  split; [reflexivity|]. split; [|split; reflexivity].
  intros [H _]. discriminate H.
Qed.

(** C4 (amended): if the computation raises a failure that can be pickled,
    [_target] catches it, sends exactly one Outcome Message [(True, failure)]
    (after the start signal of the soft mode) and returns instead of letting
    the failure leave the process; and on every exit of [_target], by return
    or by exception, the write end is closed. *)
Theorem target_reports_picklable_failure
        (hard : bool) (f : Func) args kwargs (t : Q) kind a :
  outcome (f args kwargs) = Raises kind a ->
  picklable (VExc kind a) = true ->
  reports_failure hard (VExc kind a) (_target hard f args kwargs (boot t)) /\
  closed (snd (_target hard f args kwargs (boot t))) = true /\
  (forall hard' f' args' kwargs' t',
      closed_on_exit (_target hard' f' args' kwargs' (boot t'))).
Proof.
  intros Hout Hp.
  split; [|split; [|intros; apply target_closed_on_exit]].
  - unfold reports_failure, messages. rewrite target_run. cbv zeta.
    rewrite Hout. unfold outcome_message. rewrite Hp. cbn [fst snd done sent].
    rewrite map_app, messages_start_signal. auto.
  - rewrite target_run. cbv zeta. rewrite Hout. unfold outcome_message. rewrite Hp.
    reflexivity.
Qed.

(** The soft mode, a computation raising [ValueError("bad")]. *)
Lemma target_reports_picklable_failure_witness :
  outcome (raises_value_error [] []) = Raises "ValueError" [VStr "bad"] /\
  picklable (VExc "ValueError" [VStr "bad"]) = true /\
  reports_failure false (VExc "ValueError" [VStr "bad"])
    (_target false raises_value_error [] [] (boot 0)).
Proof.
  split; [reflexivity|]. split; [reflexivity|].
  apply (@target_reports_picklable_failure false raises_value_error [] [] 0
           "ValueError" [VStr "bad"]); reflexivity.
Defined.

(** C9, as stated, fails: the computation returns an object whose [send]
    fails with an error that cannot be pickled either; the [send] of the
    [except] branch fails in turn, no Outcome Message is written and the
    exception leaves [_target]. *)
Lemma target_send_error_unpicklable :
  outcome (returns_stubborn [] []) = Returns stubborn /\
  fst (send (VTuple [VBool false; stubborn]) (boot 0)) = Raise (pickle_complaint stubborn) /\
  picklable (pickle_complaint stubborn) = false /\
  ~ reports_failure true (pickle_complaint stubborn)
      (_target true returns_stubborn [] [] (boot 0)) /\
  fst (_target true returns_stubborn [] [] (boot 0)) = Raise PicklingError /\
  messages (_target true returns_stubborn [] [] (boot 0)) = [].
Proof.
  split; [reflexivity|]. split; [reflexivity|]. split; [reflexivity|].
  split; [|split; reflexivity].
  intros [H _]. discriminate H.
Qed.

(** C9 (amended): if the computation returns a value whose [send] fails (it
    cannot be pickled) and the error of that [send] can itself be pickled,
    [_target] falls into its [except] branch, sends [(True, the send error)]
    as the Outcome Message, closes the write end and returns: the child
    does not crash. *)
Theorem target_reports_send_failure
        (hard : bool) (f : Func) args kwargs (t : Q) v :
  outcome (f args kwargs) = Returns v ->
  picklable v = false ->
  picklable (pickle_complaint v) = true ->
  fst (send (VTuple [VBool false; v]) (boot t)) = Raise (pickle_complaint v) /\
  reports_failure hard (pickle_complaint v) (_target hard f args kwargs (boot t)) /\
  closed (snd (_target hard f args kwargs (boot t))) = true.
Proof.
  intros Hout Hp Hc. split; [|split].
  - unfold send. cbn [closed boot]. rewrite picklable_pair, Hp, (complaint_pair _ _ Hp).
    reflexivity.
  - unfold reports_failure, messages. rewrite target_run. cbv zeta.
    rewrite Hout. unfold outcome_message. rewrite Hp, Hc. cbn [fst snd done sent].
    rewrite map_app, messages_start_signal. auto.
  - rewrite target_run. cbv zeta. rewrite Hout. unfold outcome_message. rewrite Hp, Hc.
    reflexivity.
Qed.

(** The hard mode, a computation returning a lock. *)
Lemma target_reports_send_failure_witness :
  outcome (returns_lock [] []) = Returns (opaque 7) /\
  picklable (opaque 7) = false /\
  picklable (pickle_complaint (opaque 7)) = true /\
  reports_failure true PicklingError (_target true returns_lock [] [] (boot 0)).
Proof.
  split; [reflexivity|]. split; [reflexivity|]. split; [reflexivity|].
  apply (@target_reports_send_failure true returns_lock [] [] 0 (opaque 7));
    reflexivity.
Defined.

(** ** [__call__] in two halves *)

(** Evaluation of lines 33 to 45 on a state given by its fields. *)
Ltac run_spawn :=
  cbv beta iota zeta delta
      [__call__ call_until_poll wait_and_collect wait_and_poll
       bind ret gets Pipe new_Process set_daemon start
       log set_stream set_process set_conns set_clock upd_process
       after_start spawned fresh_process child_run spawn_events open_conn
       cfg process parent_conn child_conn env clock inbox child_end_closed trace
       conn_closed started exits_at daemon terminated reaped
       p_hard p_function p_args p_kwargs
       function dec_timeout dec_hard_timeout fst snd].

Lemma call_unfold args kwargs (s : State) :
  __call__ args kwargs s = wait_and_collect (after_start args kwargs s).
Proof.
  destruct s as [c p r w e t i x tr].
  run_spawn. unfold daemon_flag.
  destruct (version_lt (version_info e) (3, 0)%N && system_windows e && negb (in_main_thread e));
    run_spawn;
    destruct (run_child _ e t) as [msgs x'];
    rewrite <- !app_assoc; reflexivity.
Qed.

Lemma call_until_poll_unfold args kwargs (s : State) :
  call_until_poll args kwargs s = wait_and_poll (after_start args kwargs s).
Proof.
  destruct s as [c p r w e t i x tr].
  run_spawn.
  destruct (run_child _ e t) as [msgs x'].
  rewrite <- !app_assoc; reflexivity.
Qed.

Lemma bind_assoc {S A B C} (m : M S A) (f : A -> M S B) (g : B -> M S C) (s : S) :
  bind (bind m f) g s = bind m (fun a => bind (f a) g) s.
Proof.
  unfold bind. destruct (m s) as [[a | e | | ] s']; reflexivity.
Qed.

Lemma bind_ext {S A B} (m : M S A) (f g : A -> M S B) (s : S) :
  (forall a s', f a s' = g a s') -> bind m f s = bind m g s.
Proof.
  intros H. unfold bind. destruct (m s) as [[a | e | | ] s']; auto.
Qed.

Lemma wait_and_collect_split (s : State) :
  wait_and_collect s =
  (ready <- wait_and_poll ;; if ready then value else (cancel ;; ret VNone)) s.
Proof.
  unfold wait_and_collect, wait_and_poll.
  rewrite bind_assoc. apply bind_ext. intros hard s1.
  rewrite bind_assoc. apply bind_ext. intros [] s2.
  rewrite bind_assoc. reflexivity.
Qed.

(** [__call__] is its first lines followed by [value] or [cancel]. *)
Lemma call_split args kwargs (s : State) :
  __call__ args kwargs s =
  (ready <- call_until_poll args kwargs ;;
   if ready then value else (cancel ;; ret VNone)) s.
Proof.
  rewrite call_unfold, wait_and_collect_split.
  unfold bind at 1 3. rewrite call_until_poll_unfold. reflexivity.
Qed.

(** ** What stays in place while the parent waits *)

Lemma same_objects_refl s : same_objects s s.
Proof. repeat split. Qed.

Lemma same_objects_trans s1 s2 s3 :
  same_objects s1 s2 -> same_objects s2 s3 -> same_objects s1 s3.
Proof.
  unfold same_objects. intros (a1 & a2 & a3 & a4 & a5) (b1 & b2 & b3 & b4 & b5).
  repeat split; congruence.
Qed.

Lemma same_objects_running s s' : same_objects s s' -> running s -> running s'.
Proof.
  unfold same_objects, running.
  intros (_ & _ & Hp & Hr & Hw) (R & W & p & P & St).
  repeat split; try congruence. exists p. split; congruence.
Qed.

Lemma recv_same_objects s r s' : recv s = (r, s') -> same_objects s s'.
Proof.
  unfold recv. intros H.
  destruct (parent_conn s) as [c|]; [destruct (conn_closed c)|];
    try (inversion H; subst; apply same_objects_refl).
  destruct (inbox s) as [|[t msg] rest].
  - destruct (eof_at s); inversion H; subst; repeat split.
  - destruct (loadable msg); inversion H; subst; repeat split.
Qed.

Lemma poll_same_objects timeout s r s' : poll timeout s = (r, s') -> same_objects s s'.
Proof.
  unfold poll. intros H.
  destruct (parent_conn s) as [c|]; [destruct (conn_closed c)|];
    try (inversion H; subst; apply same_objects_refl).
  destruct timeout as [d|].
  - destruct (readable_at s) as [t|]; [destruct (Qle_bool t (clock s + clamp d))|];
      inversion H; subst; repeat split.
  - destruct (readable_at s) as [t|]; inversion H; subst; repeat split.
Qed.

Lemma after_start_running args kwargs s : running (after_start args kwargs s).
Proof.
  unfold running, after_start; cbn. repeat split.
  eexists; split; reflexivity.
Qed.

Lemma wait_and_poll_same_objects s r s' :
  wait_and_poll s = (r, s') -> same_objects s s'.
Proof.
  unfold wait_and_poll, bind, gets, when, wait_until_process_started, bind, ret.
  destruct (negb (dec_hard_timeout (cfg s))).
  - destruct (recv s) as [[m | e | | ] s1] eqn:E; intros H;
      try (inversion H; subst; eapply recv_same_objects; eassumption).
    apply recv_same_objects in E.
    destruct (poll (dec_timeout (cfg s1)) s1) as [[b | e | | ] s2] eqn:P;
      apply poll_same_objects in P; inversion H; subst;
      eapply same_objects_trans; eassumption.
  - intros H.
    destruct (poll (dec_timeout (cfg s)) s) as [[b | e | | ] s2] eqn:P;
      apply poll_same_objects in P; inversion H; subst; assumption.
Qed.

(** After the first lines of [__call__] the invocation is in flight, whatever
    [poll] answered. *)
Lemma call_until_poll_running args kwargs s r s' :
  call_until_poll args kwargs s = (r, s') ->
  running s' /\ cfg s' = cfg s /\ env s' = env s.
Proof.
  rewrite call_until_poll_unfold. intros H.
  apply wait_and_poll_same_objects in H.
  split; [eapply same_objects_running; [eassumption | apply after_start_running]|].
  destruct H as (Hc & He & _). cbn in Hc, He. auto.
Qed.

(** ** [value] and [cancel] step by step *)

Lemma later_le_deadline (c x d : Q) : 0 <= d -> Qle_bool x (c + d) = true -> later c x <= c + d.
Proof.
  intros Hd H. apply Qle_bool_iff in H. unfold later.
  destruct (Qle_bool c x); lra.
Qed.

Lemma clamp_nonneg (d : Q) : 0 <= clamp d.
Proof.
  unfold clamp. destruct (Qle_bool d 0) eqn:E; [lra|].
  destruct (Qlt_le_dec 0 d) as [H|H]; [lra|].
  apply Qle_bool_iff in H. congruence.
Qed.

Lemma clamp_one : clamp 1 == 1.
Proof. reflexivity. Qed.

(** [join(timeout=1.0)] on a started process returns within one second. *)
Lemma join_run (s : State) (p : Process) :
  process s = Some p -> started p = true ->
  exists s', join 1 s = (Return tt, s') /\
             cfg s' = cfg s /\ env s' = env s /\
             parent_conn s' = parent_conn s /\ child_conn s' = child_conn s /\
             inbox s' = inbox s /\
             trace s' = trace s ++ [EvJoin (Some 1)] /\
             clock s' <= clock s + 1 /\
             exists p', process s' = Some p' /\ started p' = true.
Proof.
  intros P St. unfold join. rewrite P, St. cbn [negb].
  assert (Hc : clock s + clamp 1 <= clock s + 1) by (rewrite clamp_one; lra).
  destruct (exits_at p) as [x|].
  - destruct (Qle_bool x (clock s + clamp 1)) eqn:E.
    + eexists; split; [reflexivity|]. cbn.
      repeat split; auto.
      * apply later_le_deadline in E; [lra | apply clamp_nonneg].
      * eexists; split; reflexivity.
    + eexists; split; [reflexivity|]. cbn. repeat split; auto.
      exists p; auto.
  - eexists; split; [reflexivity|]. cbn. repeat split; auto.
    exists p; auto.
Qed.

Lemma recv_run (s : State) t msg rest :
  parent_conn s = open_conn ->
  inbox s = (t, msg) :: rest ->
  loadable msg = true ->
  recv s = (Return msg,
            log (EvRecv msg)
                (set_stream rest (child_end_closed s) (set_clock (later (clock s) t) s))).
Proof. intros R I L. unfold recv. rewrite R, I. cbn [conn_closed open_conn]. rewrite L. reflexivity. Qed.

(** A message that cannot be rebuilt is read off the pipe and lost. *)
Lemma recv_fails (s : State) t msg rest :
  parent_conn s = open_conn ->
  inbox s = (t, msg) :: rest ->
  loadable msg = false ->
  recv s = (Raise (load_complaint msg),
            set_stream rest (child_end_closed s) (set_clock (later (clock s) t) s)).
Proof. intros R I L. unfold recv. rewrite R, I. cbn [conn_closed open_conn]. rewrite L. reflexivity. Qed.

Lemma recv_blocks (s : State) :
  parent_conn s = open_conn -> child_conn s = open_conn -> inbox s = [] ->
  recv s = (Blocked, s).
Proof. intros R W I. unfold recv, eof_at. rewrite R, W, I. reflexivity. Qed.

Lemma close_run (s : State) (c : Connection) :
  parent_conn s = Some c ->
  close_parent_conn s = (Return tt, log EvCloseRead (set_conns closed_conn (child_conn s) s)).
Proof. intros R. unfold close_parent_conn. rewrite R. reflexivity. Qed.

Lemma value_run (s : State) t flag payload rest :
  running s ->
  inbox s = (t, VTuple [flag; payload]) :: rest ->
  loadable (VTuple [flag; payload]) = true ->
  exists s',
    value s = ((if truthy flag then Raise (raised payload) else Return payload), s') /\
    parent_conn s' = closed_conn /\ child_conn s' = open_conn /\
    inbox s' = rest /\
    trace s' = trace s ++ [EvRecv (VTuple [flag; payload]); EvJoin (Some 1); EvCloseRead].
Proof.
  intros (R & W & p & P & St) I L.
  unfold value. unfold bind at 1. rewrite (recv_run _ R I L).
  unfold bind at 1. cbv beta iota delta [unpack2 ret].
  unfold bind at 1.
  match goal with |- context [join 1 ?s1] =>
    destruct (@join_run s1 p) as (s2 & J & _ & _ & R2 & W2 & I2 & T2 & _ & _);
      [exact P | exact St | rewrite J]
  end.
  cbn in R2, W2, I2, T2.
  unfold bind at 1. rewrite R in R2. rewrite (close_run _ R2).
  eexists. split.
  { unfold raise_stmt, raised, raise, ret.
    destruct (truthy flag); [destruct (is_exception payload)|]; reflexivity. }
  cbn. rewrite W2, I2, T2, <- !app_assoc. auto.
Qed.

Lemma is_alive_run (s : State) (p : Process) :
  process s = Some p ->
  is_alive s = (Return (alive_at p (clock s)), log (EvIsAlive (alive_at p (clock s))) s).
Proof. intros P. unfold is_alive. rewrite P. reflexivity. Qed.

(** [terminate()] on a started process: the messages that the child writes
    before it dies stay in the pipe. *)
Lemma terminate_run (s : State) (p : Process) :
  process s = Some p -> started p = true ->
  exists s', terminate s = (Return tt, s') /\
             cfg s' = cfg s /\ env s' = env s /\ clock s' = clock s /\
             parent_conn s' = parent_conn s /\ child_conn s' = child_conn s /\
             trace s' = trace s ++ [EvTerminate] /\
             (exists p', process s' = Some p' /\ started p' = true) /\
             (forall m, In m (inbox s) ->
                        Qle_bool (fst m) (clock s + kill_latency (env s)) = true ->
                        In m (inbox s')) /\
             incl (inbox s') (inbox s).
Proof.
  intros P St. unfold terminate. rewrite P, St. cbn [negb].
  match goal with |- context [if ?c then _ else _] => destruct c end.
  - eexists; split; [reflexivity|]. cbn. repeat split; auto.
    + eexists; split; reflexivity.
    + apply incl_refl.
  - eexists; split; [reflexivity|]. cbn. repeat split; auto.
    + eexists; split; reflexivity.
    + intros m Hm Hw. apply filter_In. split; assumption.
    + intros m Hm. apply filter_In in Hm. tauto.
Qed.

(** [cancel] on an invocation in flight. *)
Lemma cancel_run (s : State) :
  running s ->
  exists p s',
    process s = Some p /\
    cancel s = (Raise (VExc (timeout_exception (cfg s)) [VStr (exception_message (cfg s))]), s') /\
    parent_conn s' = closed_conn /\ child_conn s' = open_conn /\
    trace s' = trace s ++ cancel_events (alive_at p (clock s))
                                        (timeout_exception (cfg s)) (exception_message (cfg s)) /\
    clock s' <= clock s + 1 /\
    (forall m, In m (inbox s) ->
               Qle_bool (fst m) (clock s + kill_latency (env s)) = true ->
               In m (inbox s')) /\
    incl (inbox s') (inbox s).
Proof.
  intros (R & W & p & P & St). exists p.
  unfold cancel. unfold bind at 1. rewrite (is_alive_run _ P).
  unfold cancel_events.
  assert (Step : exists s1,
             when (alive_at p (clock s)) terminate (log (EvIsAlive (alive_at p (clock s))) s)
             = (Return tt, s1) /\
             cfg s1 = cfg s /\ env s1 = env s /\ clock s1 = clock s /\
             parent_conn s1 = open_conn /\ child_conn s1 = open_conn /\
             trace s1 = (trace s ++ [EvIsAlive (alive_at p (clock s))]) ++
                        (if alive_at p (clock s) then [EvTerminate] else []) /\
             (exists p', process s1 = Some p' /\ started p' = true) /\
             (forall m, In m (inbox s) ->
                        Qle_bool (fst m) (clock s + kill_latency (env s)) = true ->
                        In m (inbox s1)) /\
             incl (inbox s1) (inbox s)).
  { destruct (alive_at p (clock s)); unfold when.
    - match goal with |- context [terminate ?s0] =>
        destruct (@terminate_run s0 p P St)
          as (s1 & T & C1 & E1 & K1 & R1 & W1 & T1 & P1 & I1 & L1)
      end.
      cbn in C1, E1, K1, R1, W1, T1, I1, L1.
      exists s1. rewrite R1, W1. repeat split; auto.
    - eexists; split; [reflexivity|]. cbn. rewrite app_nil_r.
      repeat split; auto.
      + exists p; auto.
      + apply incl_refl. }
  destruct Step as (s1 & T & C1 & E1 & K1 & R1 & W1 & T1 & (p1 & P1 & St1) & I1 & L1).
  unfold bind at 1. rewrite T.
  destruct (@join_run s1 p1 P1 St1) as (s2 & J & C2 & _ & R2 & W2 & I2 & T2 & K2 & _).
  unfold bind at 1. rewrite J.
  unfold bind at 1. rewrite R1 in R2. rewrite (close_run _ R2).
  unfold bind, gets, raise_exception.
  eexists. split; [exact P|]. split.
  { cbn. rewrite C2, C1. reflexivity. }
  cbn. rewrite ?C2, ?C1, W2, W1, T2, T1, I2, <- !app_assoc.
  repeat split; auto.
  rewrite <- K1. exact K2.
Qed.

(** ** The completed path *)

(** C1, as stated, fails: the computation raises an exception that pickles
    but cannot be rebuilt in the parent; the Outcome Message arrives within
    the budget, [poll] answers true, [recv] raises the error of the
    unpickling and [__call__] lets it through: it does not raise the carried
    failure, and it neither joins nor closes. *)
Lemma call_cannot_rebuild_outcome :
  call_until_poll [] [] one_way_failure = (Return true, one_way_failure_polled) /\
  inbox one_way_failure_polled = [(12 # 20, VTuple [VBool true; two_arg_error])] /\
  is_exception two_arg_error = true /\
  fst (__call__ [] [] one_way_failure) = Raise (load_complaint two_arg_error) /\
  fst (__call__ [] [] one_way_failure) <> Raise two_arg_error /\
  trace (snd (__call__ [] [] one_way_failure)) = trace one_way_failure_polled /\
  parent_conn (snd (__call__ [] [] one_way_failure)) = open_conn.
Proof.
  assert (H : fst (__call__ [] [] one_way_failure) = Raise (load_complaint two_arg_error))
    by (vm_compute; reflexivity).
  split; [vm_compute; reflexivity|]. split; [reflexivity|]. split; [reflexivity|].
  split; [exact H|]. split; [rewrite H; discriminate|].
  split; vm_compute; reflexivity.
Qed.

(** C1 (amended): when the first lines of [__call__] end with [poll]
    answering true and the Outcome Message [(flag, payload)] is the next
    message of the pipe and can be rebuilt in the parent, [__call__] returns
    [payload] if the flag is false and raises [payload], the carried failure
    object, if the flag is true; it receives, joins and closes, and
    [raise_exception] (the configured timeout failure) is not called. *)
Theorem call_delivers_outcome args kwargs (s0 s1 : State) t flag payload rest :
  call_until_poll args kwargs s0 = (Return true, s1) ->
  inbox s1 = (t, VTuple [VBool flag; payload]) :: rest ->
  loadable (VTuple [VBool flag; payload]) = true ->
  (flag = true -> is_exception payload = true) ->
  fst (__call__ args kwargs s0) = (if flag then Raise payload else Return payload) /\
  trace (snd (__call__ args kwargs s0)) =
    trace s1 ++ [EvRecv (VTuple [VBool flag; payload]); EvJoin (Some 1); EvCloseRead].
Proof.
  intros Hpoll Hin Hload Hexc.
  destruct (call_until_poll_running _ _ _ Hpoll) as (Hrun & _ & _).
  destruct (value_run Hrun Hin Hload) as (s' & Hv & _ & _ & _ & Ht).
  assert (Hcall : __call__ args kwargs s0 = value s1)
    by (rewrite call_split; unfold bind at 1; rewrite Hpoll; reflexivity).
  rewrite Hcall, Hv. cbn [fst snd truthy].
  split; [|exact Ht].
  destruct flag; [|reflexivity].
  unfold raised. rewrite (Hexc eq_refl). reflexivity.
Qed.

(** A quick success and a quick failure under a budget of one second. *)
Lemma call_delivers_outcome_witness :
  fst (__call__ [] [] Scenario.quick_ok) = Return (VStr "ok") /\
  fst (__call__ [] [] Scenario.quick_bad) = Raise (VExc "ValueError" [VStr "bad"]).
Proof.
  split.
  - refine (proj1 (@call_delivers_outcome [] [] Scenario.quick_ok quick_ok_polled
                     (12 # 20) false (VStr "ok") [] _ _ _ _)).
    + vm_compute. reflexivity.
    + reflexivity.
    + reflexivity.
    + discriminate.
  - refine (proj1 (@call_delivers_outcome [] [] Scenario.quick_bad quick_bad_polled
                     (12 # 20) true (VExc "ValueError" [VStr "bad"]) [] _ _ _ _)).
    + vm_compute. reflexivity.
    + reflexivity.
    + reflexivity.
    + reflexivity.
Defined.

(** ** The timed-out path *)

(** C3: when the first lines of [__call__] end with [poll] answering false,
    [__call__] asks whether the child is alive and calls [terminate()] only
    if it is, joins with a timeout of 1 (so that at most one more second
    passes), closes its read end and raises the configured timeout failure
    with the configured message.  It receives nothing: a message that the
    child managed to write before it died is still in the pipe. *)
Theorem call_times_out args kwargs (s0 s1 : State) :
  call_until_poll args kwargs s0 = (Return false, s1) ->
  exists p,
    process s1 = Some p /\
    fst (__call__ args kwargs s0) =
      Raise (VExc (timeout_exception (cfg s0)) [VStr (exception_message (cfg s0))]) /\
    trace (snd (__call__ args kwargs s0)) =
      trace s1 ++ [EvIsAlive (alive_at p (clock s1))] ++
      (if alive_at p (clock s1) then [EvTerminate] else []) ++
      [EvJoin (Some 1); EvCloseRead;
       EvRaiseException (timeout_exception (cfg s0)) (exception_message (cfg s0))] /\
    parent_conn (snd (__call__ args kwargs s0)) = closed_conn /\
    clock (snd (__call__ args kwargs s0)) <= clock s1 + 1 /\
    (forall m, In m (inbox s1) ->
               Qle_bool (fst m) (clock s1 + kill_latency (env s0)) = true ->
               In m (inbox (snd (__call__ args kwargs s0)))).
Proof.
  intros Hpoll.
  destruct (call_until_poll_running _ _ _ Hpoll) as (Hrun & Hc & He).
  destruct (cancel_run Hrun) as (p & s' & P & Hcan & R & _ & T & K & I & _).
  assert (Hcall : __call__ args kwargs s0 = (cancel ;; ret VNone) s1)
    by (rewrite call_split; unfold bind at 1; rewrite Hpoll; reflexivity).
  exists p. rewrite Hcall. unfold bind. rewrite Hcan. cbn [fst snd].
  rewrite <- Hc, <- He. repeat split; auto.
Qed.

(** The result written too late for the budget, yet before the child is
    dead, is left in the pipe. *)
Lemma call_times_out_witness :
  fst (__call__ [] [] Scenario.late_hard) = Raise (VExc "TimeoutError" [VStr "timed out"]) /\
  In (22 # 20, VTuple [VBool false; VStr "ok"])
     (inbox (snd (__call__ [] [] Scenario.late_hard))).
Proof.
  assert (H : call_until_poll [] [] Scenario.late_hard = (Return false, late_hard_polled))
    by (vm_compute; reflexivity).
  destruct (@call_times_out [] [] Scenario.late_hard late_hard_polled H)
    as (p & _ & R & _ & _ & _ & I).
  split; [exact R|].
  apply I; [left; reflexivity | reflexivity].
Defined.

(** ** [cancel] before any call *)

(** C10: on a Supervisor that was never called, [cancel()] raises the
    attribute error of [None.is_alive] at its first statement; nothing else
    happens, in particular [raise_exception] is not reached. *)
Theorem cancel_when_idle (f : Func) (exc msg : string) (timeout : option Q) (hard : bool)
        (e : Env) (t0 : Q) :
  process (__init__ f exc msg timeout hard e t0) = None /\
  cancel (__init__ f exc msg timeout hard e t0) =
    (Raise (AttributeError "'NoneType' object has no attribute 'is_alive'"),
     __init__ f exc msg timeout hard e t0) /\
  trace (snd (cancel (__init__ f exc msg timeout hard e t0))) = [].
Proof. repeat split. Qed.

(** ** What the child puts in the pipe *)

Ltac split_all := repeat match goal with |- _ /\ _ => split end.

(** The pickler complains with an exception. *)
Lemma pickle_complaint_is_exception : forall v, is_exception (pickle_complaint v) = true.
Proof.
  fix IH 1.
  intros [ | b | n | s | items | kind args | tag kind args | tag kind args];
    try reflexivity.
  - cbn. revert items. fix IHl 1. intros [|x rest]; [reflexivity|].
    destruct (picklable x); [apply IHl | apply IH].
  - cbn. revert args. fix IHl 1. intros [|x rest]; [reflexivity|].
    destruct (picklable x); [apply IHl | apply IH].
Qed.

Lemma raised_pickle_complaint v : raised (pickle_complaint v) = pickle_complaint v.
Proof. unfold raised. rewrite pickle_complaint_is_exception. reflexivity. Qed.

(** Loading the pair fails with the complaint of its second item. *)
Lemma load_complaint_pair (b : bool) (v : pyval) :
  loadable v = false -> load_complaint (VTuple [VBool b; v]) = load_complaint v.
Proof. intros H. cbn. rewrite H. reflexivity. Qed.

Lemma loadable_pair (b : bool) (v : pyval) : loadable (VTuple [VBool b; v]) = loadable v.
Proof. cbn. apply andb_true_r. Qed.

Lemma outcome_message_pair (o : Outcome) (m : pyval) :
  outcome_message o = Some m -> exists b v, m = VTuple [VBool b; v].
Proof.
  destruct o as [v | kind a | | ]; unfold outcome_message.
  - destruct (picklable v); [|destruct (picklable (pickle_complaint v))];
      intros H; inversion H; eauto.
  - destruct (picklable (VExc kind a)); intros H; inversion H; eauto.
  - discriminate.
  - discriminate.
Qed.

(** What [_target] writes, by the outcome of the computation. *)
Lemma target_messages (hard : bool) (f : Func) args kwargs (t : Q) :
  messages (_target hard f args kwargs (boot t)) =
  started_msg hard ++
  match outcome_message (outcome (f args kwargs)) with
  | Some m => [m]
  | None => []
  end.
Proof.
  unfold messages. rewrite target_run. cbv zeta.
  destruct (outcome (f args kwargs)) as [v | kind a | | ];
    [destruct (outcome_message (Returns v)) | destruct (outcome_message (Raises kind a)) | | ];
    cbn [snd sent done map];
    rewrite ?map_app, messages_start_signal; cbn [map snd outcome_message];
    rewrite ?app_nil_r; reflexivity.
Qed.

(** What the child writes and when it ends, by the outcome of the
    computation: a child that is not started, or whose call of [_target]
    does not bind, writes nothing. *)
Lemma child_run_eq args kwargs (s : State) :
  child_run args kwargs s =
  let t0 := clock s + spawn_latency (env s) in
  let t1 := t0 + takes (function (cfg s) args kwargs) in
  let pre := start_signal (dec_hard_timeout (cfg s)) t0 in
  if spawn_fails (env s) then ([], Some t0)
  else if binds kwargs then
    match outcome (function (cfg s) args kwargs) with
    | NeverReturns => (pre, None)
    | Dies => (pre, Some t1)
    | o =>
        match outcome_message o with
        | Some m => (pre ++ [(t1, m)], Some (t1 + exit_latency (env s)))
        | None => (pre, Some (t1 + exit_latency (env s)))
        end
    end
  else ([], Some (t0 + exit_latency (env s))).
Proof.
  unfold child_run, run_child, fresh_process, main.
  cbn [p_hard p_function p_args p_kwargs]. cbv zeta.
  destruct (spawn_fails (env s)); [reflexivity|].
  destruct (binds kwargs); [|reflexivity].
  rewrite target_run. cbv zeta.
  destruct (outcome (function (cfg s) args kwargs)) as [v | kind a | | ];
    [destruct (outcome_message (Returns v)) | destruct (outcome_message (Raises kind a)) | | ];
    reflexivity.
Qed.

(** ** [poll] and what follows it *)

(** [poll] on an invocation in flight.  The parent's own handle on the write
    end is open, so the read end never sees the end of the stream: only a
    message makes it readable. *)
Lemma poll_cases (s : State) (timeout : option Q) :
  running s ->
  poll timeout s =
  match timeout, inbox s with
  | None, [] => (Blocked, s)
  | None, (t, _) :: _ =>
      (Return true, log (EvPoll None true) (set_clock (later (clock s) t) s))
  | Some d, [] =>
      (Return false, log (EvPoll (Some d) false) (set_clock (clock s + clamp d) s))
  | Some d, (t, _) :: _ =>
      if Qle_bool t (clock s + clamp d)
      then (Return true, log (EvPoll (Some d) true) (set_clock (later (clock s) t) s))
      else (Return false, log (EvPoll (Some d) false) (set_clock (clock s + clamp d) s))
  end.
Proof.
  intros (R & W & _). unfold poll, readable_at, eof_at. rewrite R, W. cbn.
  destruct timeout as [d|]; destruct (inbox s) as [|[t m] rest]; reflexivity.
Qed.

Lemma poll_and_collect_step (s : State) timeout r s1 :
  poll timeout s = (r, s1) ->
  poll_and_collect timeout s =
  match r with
  | Return true => value s1
  | Return false => (cancel ;; ret VNone) s1
  | Raise e => (Raise e, s1)
  | Blocked => (Blocked, s1)
  | Killed => (Killed, s1)
  end.
Proof.
  intros H. unfold poll_and_collect. unfold bind at 1. rewrite H.
  destruct r as [[|] | | | ]; reflexivity.
Qed.

Lemma wait_and_collect_eq (s : State) :
  wait_and_collect s =
  (when (negb (dec_hard_timeout (cfg s))) wait_until_process_started ;;
   timeout <- gets (fun s => dec_timeout (cfg s)) ;;
   poll_and_collect timeout) s.
Proof. reflexivity. Qed.

Lemma hard_step (s : State) :
  dec_hard_timeout (cfg s) = true ->
  wait_and_collect s = poll_and_collect (dec_timeout (cfg s)) s.
Proof. intros H. rewrite wait_and_collect_eq, H. reflexivity. Qed.

Lemma soft_step (s : State) t msg rest :
  running s -> dec_hard_timeout (cfg s) = false -> inbox s = (t, msg) :: rest ->
  loadable msg = true ->
  wait_and_collect s =
  poll_and_collect (dec_timeout (cfg s))
    (log (EvRecv msg)
         (set_stream rest (child_end_closed s) (set_clock (later (clock s) t) s))).
Proof.
  intros (R & _) H I L. rewrite wait_and_collect_eq, H.
  unfold when, negb, wait_until_process_started.
  unfold bind at 1 2. rewrite (recv_run _ R I L). reflexivity.
Qed.

Lemma soft_blocked (s : State) :
  running s -> dec_hard_timeout (cfg s) = false -> inbox s = [] ->
  wait_and_collect s = (Blocked, s).
Proof.
  intros (R & W & _) H I. rewrite wait_and_collect_eq, H.
  unfold when, negb, wait_until_process_started.
  unfold bind at 1 2. rewrite (recv_blocks _ R W I). reflexivity.
Qed.

(** ** A child that ends without a message *)

(** C7, as stated, fails: in hard mode the child is killed before it writes
    anything; [__call__] does not raise [EOFError] but the configured timeout
    failure. *)
Lemma killed_child_reported_as_timeout :
  child_run [] [] Scenario.killed_hard = ([], Some (12 # 20)) /\
  fst (__call__ [] [] Scenario.killed_hard) = Raise (VExc "TimeoutError" [VStr "timed out"]) /\
  fst (__call__ [] [] Scenario.killed_hard) <> Raise EOFError.
Proof.
  assert (H : fst (__call__ [] [] Scenario.killed_hard)
              = Raise (VExc "TimeoutError" [VStr "timed out"]))
    by (vm_compute; reflexivity).
  split; [vm_compute; reflexivity|]. split; [exact H|].
  rewrite H. discriminate.
Qed.

(** C7 (amended): when the child ends without having written any message,
    the receive of the Supervisor does not fail with [EOFError], because the
    Supervisor holds an open handle on the write end itself.  In hard mode
    with a numeric budget [__call__] raises the configured timeout failure;
    in soft mode, or without a budget, it blocks. *)
Theorem call_without_message args kwargs (s0 : State) :
  fst (child_run args kwargs s0) = [] ->
  fst (__call__ args kwargs s0) =
  match dec_hard_timeout (cfg s0), dec_timeout (cfg s0) with
  | true, Some _ => Raise (timeout_failure s0)
  | _, _ => Blocked
  end.
Proof.
  intros E. rewrite call_unfold.
  pose proof (after_start_running args kwargs s0) as Hrun.
  change (fst (child_run args kwargs s0)) with (inbox (after_start args kwargs s0)) in E.
  change (cfg s0) with (cfg (after_start args kwargs s0)).
  unfold timeout_failure.
  change (cfg s0) with (cfg (after_start args kwargs s0)).
  set (s := after_start args kwargs s0) in *.
  destruct (dec_hard_timeout (cfg s)) eqn:Hh.
  - rewrite (hard_step _ Hh).
    destruct (poll (dec_timeout (cfg s)) s) as [r s1] eqn:Hp.
    rewrite (poll_and_collect_step _ _ Hp).
    pose proof (poll_same_objects _ _ Hp) as Hsame.
    rewrite (poll_cases _ Hrun), E in Hp.
    destruct (dec_timeout (cfg s)) as [d|]; injection Hp as Hr _; subst r; [|reflexivity].
    destruct (cancel_run (same_objects_running Hsame Hrun)) as (p & s2 & _ & Hc & _).
    unfold bind. rewrite Hc. cbn [fst].
    destruct Hsame as (C & _). rewrite C. reflexivity.
  - rewrite (soft_blocked Hrun Hh E). destruct (dec_timeout (cfg s)); reflexivity.
Qed.

(** The child killed in hard mode. *)
Lemma call_without_message_witness :
  fst (child_run [] [] Scenario.killed_hard) = [] /\
  fst (__call__ [] [] Scenario.killed_hard) = Raise (VExc "TimeoutError" [VStr "timed out"]).
Proof.
  assert (H : fst (child_run [] [] Scenario.killed_hard) = []) by reflexivity.
  split; [exact H|].
  exact (@call_without_message [] [] Scenario.killed_hard H).
Defined.

(** ** The child process through [terminate] and [join] *)

Lemma Qle_bool_false (a b : Q) : Qle_bool a b = false -> b < a.
Proof.
  intros H. apply Qnot_le_lt. intros L. apply Qle_bool_iff in L. congruence.
Qed.

Lemma Qle_bool_ext (a b c d : Q) : (a <= b <-> c <= d) -> Qle_bool a b = Qle_bool c d.
Proof.
  intros H.
  destruct (Qle_bool a b) eqn:E1; destruct (Qle_bool c d) eqn:E2; try reflexivity.
  - apply Qle_bool_iff in E1. apply H in E1. apply Qle_bool_iff in E1. congruence.
  - apply Qle_bool_iff in E2. apply H in E2. apply Qle_bool_iff in E2. congruence.
Qed.

Lemma clamp_id (d : Q) : 0 <= d -> clamp d == d.
Proof.
  intros H. unfold clamp. destruct (Qle_bool d 0) eqn:E; [|reflexivity].
  apply Qle_bool_iff in E. lra.
Qed.

Lemma later_spawn (c l : Q) : 0 <= l -> later c (c + l) = c + l.
Proof.
  intros H. unfold later. destruct (Qle_bool c (c + l)) eqn:E; [reflexivity|].
  assert (H' : c <= c + l) by lra. apply Qle_bool_iff in H'. congruence.
Qed.

Lemma later_ge_l (c t : Q) : c <= later c t.
Proof.
  unfold later. destruct (Qle_bool c t) eqn:E; [apply Qle_bool_iff in E; exact E | lra].
Qed.

Lemma later_ge_r (c t : Q) : t <= later c t.
Proof.
  unfold later. destruct (Qle_bool c t) eqn:E; [lra|].
  apply Qle_bool_false in E. lra.
Qed.

Lemma later_le (c t b : Q) : c <= b -> t <= b -> later c t <= b.
Proof. intros H1 H2. unfold later. destruct (Qle_bool c t); assumption. Qed.

Lemma dead_at (p : Process) (x t : Q) :
  exits_at p = Some x -> x <= t -> alive_at p t = false.
Proof.
  intros E L. unfold alive_at. rewrite E. apply Qle_bool_iff in L. rewrite L.
  apply andb_false_r.
Qed.

Lemma not_alive_exited (p : Process) (t : Q) :
  started p = true -> alive_at p t = false -> exists x, exits_at p = Some x /\ x <= t.
Proof.
  unfold alive_at. intros St A. rewrite St in A. cbn in A.
  destruct (exits_at p) as [x|]; [|discriminate A].
  exists x. split; [reflexivity|].
  destruct (Qle_bool x t) eqn:E; [apply Qle_bool_iff in E; exact E | discriminate A].
Qed.

(** [join(timeout=1.0)] reaps a child that ends within the second. *)
Lemma join_facts (s : State) (p : Process) :
  process s = Some p -> started p = true ->
  exists s' p',
    join 1 s = (Return tt, s') /\
    cfg s' = cfg s /\ env s' = env s /\
    parent_conn s' = parent_conn s /\ child_conn s' = child_conn s /\
    inbox s' = inbox s /\
    trace s' = trace s ++ [EvJoin (Some 1)] /\
    clock s <= clock s' /\ clock s' <= clock s + 1 /\
    process s' = Some p' /\ started p' = true /\
    daemon p' = daemon p /\ exits_at p' = exits_at p /\
    terminated p' = terminated p /\
    (forall x, exits_at p = Some x -> x <= clock s + 1 ->
               reaped p' = true /\ alive_at p' (clock s') = false).
Proof.
  intros P St. unfold join. rewrite P, St. cbn [negb].
  change (clamp 1) with 1.
  destruct (exits_at p) as [x|] eqn:X.
  - destruct (Qle_bool x (clock s + 1)) eqn:E.
    + apply Qle_bool_iff in E.
      eexists. eexists. split; [reflexivity|]. cbn.
      split_all; auto.
      * apply later_ge_l.
      * apply later_le; [lra | exact E].
      * intros y _ _. split; [reflexivity|].
        eapply dead_at; [reflexivity | apply later_ge_r].
    + apply Qle_bool_false in E.
      eexists. exists p. split; [reflexivity|]. cbn.
      split_all; auto; try lra.
      intros y Hy Hle. injection Hy as <-. lra.
  - eexists. exists p. split; [reflexivity|]. cbn.
    split_all; auto; try lra. intros y Hy; discriminate Hy.
Qed.

(** [terminate()] on a started process: the child is gone [kill_latency]
    later at the latest. *)
Lemma terminate_facts (s : State) (p : Process) :
  process s = Some p -> started p = true ->
  exists s' p' x,
    terminate s = (Return tt, s') /\
    cfg s' = cfg s /\ env s' = env s /\ clock s' = clock s /\
    parent_conn s' = parent_conn s /\ child_conn s' = child_conn s /\
    trace s' = trace s ++ [EvTerminate] /\
    process s' = Some p' /\ started p' = true /\ daemon p' = daemon p /\
    terminated p' = true /\
    exits_at p' = Some x /\ x <= clock s + kill_latency (env s).
Proof.
  intros P St. unfold terminate. rewrite P, St. cbn [negb].
  destruct (exits_at p) as [x|] eqn:X.
  - destruct (Qle_bool x (clock s + kill_latency (env s))) eqn:E.
    + apply Qle_bool_iff in E.
      eexists. eexists. exists x. split; [reflexivity|]. cbn. split_all; auto.
    + eexists. eexists. exists (clock s + kill_latency (env s)).
      split; [reflexivity|]. cbn. split_all; auto. lra.
  - eexists. eexists. exists (clock s + kill_latency (env s)).
    split; [reflexivity|]. cbn. split_all; auto. lra.
Qed.

(** [value] on an invocation in flight, for a message that can be rebuilt:
    the child that ends within a second of its message is reaped. *)
Lemma value_facts (s : State) (p : Process) t flag payload rest :
  running s -> process s = Some p ->
  inbox s = (t, VTuple [flag; payload]) :: rest ->
  loadable (VTuple [flag; payload]) = true ->
  exists s' p',
    value s = ((if truthy flag then Raise (raised payload) else Return payload), s') /\
    cfg s' = cfg s /\ env s' = env s /\
    parent_conn s' = closed_conn /\ child_conn s' = open_conn /\
    trace s' = trace s ++ [EvRecv (VTuple [flag; payload]); EvJoin (Some 1); EvCloseRead] /\
    later (clock s) t <= clock s' /\ clock s' <= later (clock s) t + 1 /\
    process s' = Some p' /\ started p' = true /\ daemon p' = daemon p /\
    (forall x, exits_at p = Some x -> x <= t + 1 ->
               reaped p' = true /\ alive_at p' (clock s') = false).
Proof.
  intros (R & W & p0 & P0 & St) P I L. rewrite P in P0. injection P0 as <-.
  unfold value. unfold bind at 1. rewrite (recv_run _ R I L).
  unfold bind at 1. cbv beta iota delta [unpack2 ret].
  unfold bind at 1.
  match goal with |- context [join 1 ?s1] =>
    destruct (@join_facts s1 p P St)
      as (s2 & p2 & J & C2 & E2 & R2 & W2 & _ & T2 & K2 & K2' & P2 & St2 & D2 & X2 & _ & Reap);
      rewrite J
  end.
  cbn in C2, E2, R2, W2, T2, K2, K2', Reap.
  unfold bind at 1. rewrite R in R2. rewrite (close_run _ R2).
  eexists. exists p2. split.
  { unfold raise_stmt, raised, raise, ret.
    destruct (truthy flag); [destruct (is_exception payload)|]; reflexivity. }
  cbn. rewrite W2, T2, <- !app_assoc. split_all; auto.
  intros x X Hx. apply (Reap x X). pose proof (later_ge_r (clock s) t). lra.
Qed.

(** [value] on a message that cannot be rebuilt: the error of [recv] leaves
    [value] at its first statement; no [join], no [close]. *)
Lemma value_fails (s : State) t msg rest :
  running s -> inbox s = (t, msg) :: rest -> loadable msg = false ->
  value s = (Raise (load_complaint msg),
             set_stream rest (child_end_closed s) (set_clock (later (clock s) t) s)).
Proof.
  intros (R & _) I L. unfold value. unfold bind at 1. rewrite (recv_fails _ R I L).
  reflexivity.
Qed.

(** [cancel] on an invocation in flight: the child is terminated if it is
    alive, and reaped if it dies within the second of the join. *)
Lemma cancel_facts (s : State) (p : Process) :
  running s -> process s = Some p ->
  exists s' p',
    cancel s = (Raise (timeout_failure s), s') /\
    cfg s' = cfg s /\ env s' = env s /\
    parent_conn s' = closed_conn /\ child_conn s' = open_conn /\
    trace s' = trace s ++ cancel_events (alive_at p (clock s))
                                        (timeout_exception (cfg s)) (exception_message (cfg s)) /\
    clock s <= clock s' /\ clock s' <= clock s + 1 /\
    process s' = Some p' /\ started p' = true /\ daemon p' = daemon p /\
    (alive_at p (clock s) = true -> terminated p' = true) /\
    (kill_latency (env s) <= 1 -> reaped p' = true /\ alive_at p' (clock s') = false).
Proof.
  intros (R & W & p0 & P0 & St) P. rewrite P in P0. injection P0 as <-.
  unfold cancel. unfold bind at 1. rewrite (is_alive_run _ P).
  unfold cancel_events.
  assert (Step : exists s1 p1,
             when (alive_at p (clock s)) terminate (log (EvIsAlive (alive_at p (clock s))) s)
             = (Return tt, s1) /\
             cfg s1 = cfg s /\ env s1 = env s /\ clock s1 = clock s /\
             parent_conn s1 = open_conn /\ child_conn s1 = open_conn /\
             trace s1 = (trace s ++ [EvIsAlive (alive_at p (clock s))]) ++
                        (if alive_at p (clock s) then [EvTerminate] else []) /\
             process s1 = Some p1 /\ started p1 = true /\ daemon p1 = daemon p /\
             (alive_at p (clock s) = true -> terminated p1 = true) /\
             (kill_latency (env s) <= 1 ->
              exists x, exits_at p1 = Some x /\ x <= clock s + 1)).
  { destruct (alive_at p (clock s)) eqn:A; unfold when.
    - match goal with |- context [terminate ?s0] =>
        destruct (@terminate_facts s0 p P St)
          as (s1 & p1 & x & T & C1 & E1 & K1 & R1 & W1 & T1 & P1 & St1 & D1 & Tm & X1 & L1)
      end.
      cbn in C1, E1, K1, R1, W1, T1, L1.
      exists s1, p1. rewrite R1, W1. split_all; auto.
      intros Hk. exists x. split; [exact X1 | lra].
    - exists (log (EvIsAlive false) s), p. split; [reflexivity|]. cbn.
      rewrite app_nil_r.
      split_all; auto; try discriminate.
      intros _. destruct (@not_alive_exited p (clock s) St A) as (x & X & L).
      exists x. split; [exact X | lra]. }
  destruct Step as (s1 & p1 & T & C1 & E1 & K1 & R1 & W1 & T1 & P1 & St1 & D1 & Tm & X1).
  unfold bind at 1. rewrite T.
  destruct (@join_facts s1 p1 P1 St1)
    as (s2 & p2 & J & C2 & E2 & R2 & W2 & _ & T2 & K2 & K2' & P2 & St2 & D2 & X2 & Tm2 & Reap).
  unfold bind at 1. rewrite J.
  unfold bind at 1. rewrite R1 in R2. rewrite (close_run _ R2).
  unfold bind, gets, raise_exception.
  eexists. exists p2. split.
  { unfold timeout_failure. cbn. rewrite C2, C1. reflexivity. }
  cbn. rewrite ?C2, ?C1, ?E2, ?E1, W2, W1, T2, T1, <- !app_assoc.
  split_all; auto; try lra.
  - rewrite <- K1. exact K2.
  - rewrite <- K1. exact K2'.
  - congruence.
  - intros A. rewrite Tm2. exact (Tm A).
  - intros Hk. destruct (X1 Hk) as (x & X & L). apply (Reap x X). rewrite K1. lra.
Qed.

(** ** Lines 48 to 51, in full *)

Lemma polled_running (s : State) ev t : running s -> running (log ev (set_clock t s)).
Proof. intros (R & W & p & P & St). repeat split; auto. exists p; auto. Qed.

(** The three ways through lines 48 to 51: [cancel] after the budget ... *)
Lemma cancel_path (s0 s : State) (p : Process) (d : Q) :
  running s -> cfg s = cfg s0 -> env s = env s0 -> process s = Some p ->
  exists s' p',
    (cancel ;; ret VNone) (log (EvPoll (Some d) false) (set_clock (clock s + clamp d) s))
      = (Raise (timeout_failure s0), s') /\
    trace s' = trace s ++
               EvPoll (Some d) false ::
               cancel_events (alive_at p (clock s + clamp d))
                             (timeout_exception (cfg s0)) (exception_message (cfg s0)) /\
    cfg s' = cfg s0 /\ env s' = env s0 /\ child_conn s' = open_conn /\
    process s' = Some p' /\ started p' = true /\ daemon p' = daemon p /\
    clock s <= clock s' /\ clock s' <= clock s + clamp d + 1 /\
    left_clean s0 s' p p'.
Proof.
  intros Hrun C E P.
  assert (Halive : forall c, exits_at p = None -> alive_at p c = true).
  { intros c X. unfold alive_at. rewrite X.
    destruct Hrun as (_ & _ & q & Q & St). rewrite P in Q. injection Q as <-.
    rewrite St. reflexivity. }
  destruct (@cancel_facts (log (EvPoll (Some d) false) (set_clock (clock s + clamp d) s)) p
                          (polled_running _ _ Hrun) P)
    as (s2 & p2 & Hc & C2 & E2 & R2 & W2 & T2 & K2 & K2' & P2 & St2 & D2 & Tm & Reap).
  cbn in C2, E2, T2, K2, K2', Reap, Tm.
  exists s2, p2. unfold bind. rewrite Hc.
  pose proof (clamp_nonneg d) as Hclamp.
  split; [unfold timeout_failure; cbn; rewrite C; reflexivity|].
  rewrite T2, C2, E2, C, E, <- app_assoc. unfold left_clean. split_all; auto; try lra.
  intros Hk _. apply Reap. rewrite E. exact Hk.
Qed.

(** ... [value] on a message that can be rebuilt ... *)
Lemma value_path (s0 s : State) (p : Process) (timeout : option Q) t b v :
  running s -> cfg s = cfg s0 -> env s = env s0 -> process s = Some p ->
  inbox s = [(t, VTuple [VBool b; v])] ->
  exits_at p = Some (t + exit_latency (env s0)) ->
  loadable (VTuple [VBool b; v]) = true ->
  exists s' p',
    value (log (EvPoll timeout true) (set_clock (later (clock s) t) s))
      = ((if b then Raise (raised v) else Return v), s') /\
    trace s' = trace s ++
               [EvPoll timeout true; EvRecv (VTuple [VBool b; v]); EvJoin (Some 1); EvCloseRead] /\
    cfg s' = cfg s0 /\ env s' = env s0 /\ child_conn s' = open_conn /\
    process s' = Some p' /\ started p' = true /\ daemon p' = daemon p /\
    clock s <= clock s' /\ clock s' <= later (clock s) t + 1 /\
    left_clean s0 s' p p'.
Proof.
  intros Hrun C E P I X L.
  destruct (@value_facts (log (EvPoll timeout true) (set_clock (later (clock s) t) s))
                         p t (VBool b) v [] (polled_running _ _ Hrun) P I L)
    as (s2 & p2 & Hv & C2 & E2 & R2 & W2 & T2 & K2 & K2' & P2 & St2 & D2 & Reap).
  cbn in C2, E2, T2, K2, K2', Hv.
  exists s2, p2. rewrite Hv.
  pose proof (later_ge_l (clock s) t) as G1.
  pose proof (later_ge_r (clock s) t) as G2.
  assert (G3 : later (later (clock s) t) t <= later (clock s) t)
    by (apply later_le; lra).
  pose proof (later_ge_l (later (clock s) t) t) as G4.
  split; [reflexivity|].
  rewrite T2, C2, E2, C, E, <- app_assoc. unfold left_clean. split_all; auto; try lra.
  - intros _ Hx. apply (Reap _ X). lra.
  - intros X'. rewrite X in X'. discriminate X'.
Qed.

(** ... and [value] on a message that cannot be. *)
Lemma unread_path (s : State) (timeout : option Q) t m :
  running s -> inbox s = [(t, m)] -> loadable m = false ->
  exists s',
    value (log (EvPoll timeout true) (set_clock (later (clock s) t) s))
      = (Raise (load_complaint m), s') /\
    trace s' = trace s ++ [EvPoll timeout true] /\
    cfg s' = cfg s /\ env s' = env s /\
    parent_conn s' = open_conn /\ child_conn s' = open_conn /\
    process s' = process s /\
    clock s <= clock s' /\ clock s' <= later (clock s) t.
Proof.
  intros Hrun I L.
  rewrite (@value_fails _ t m [] (polled_running _ _ Hrun) I L).
  eexists. split; [reflexivity|]. cbn.
  destruct Hrun as (R & W & _).
  pose proof (later_ge_l (clock s) t) as G1.
  pose proof (later_ge_r (clock s) t) as G2.
  pose proof (later_ge_l (later (clock s) t) t) as G4.
  assert (G3 : later (later (clock s) t) t <= later (clock s) t)
    by (apply later_le; lra).
  split_all; auto; lra.
Qed.

(** Lines 48 to 51 on a state about to run them: the result is read off the
    pipe by [settle], what is done by [settle_events]; an invocation that
    ends leaves the Supervisor with its read end closed and its child
    joined, unless [value] found a message that it could not rebuild. *)
Lemma poll_and_collect_facts (s0 s : State) (timeout : option Q) (p : Process) :
  at_poll s0 s -> process s = Some p ->
  exists s' p' alive,
    poll_and_collect timeout s =
      (settle timeout (timeout_failure s0) (clock s) (inbox s), s') /\
    trace s' = trace s ++
               settle_events timeout (timeout_exception (cfg s0)) (exception_message (cfg s0))
                             alive (clock s) (inbox s) /\
    cfg s' = cfg s0 /\ env s' = env s0 /\ child_conn s' = open_conn /\
    process s' = Some p' /\ started p' = true /\ daemon p' = daemon p /\
    clock s <= clock s' /\
    (forall d, timeout = Some d -> clock s' <= clock s + clamp d + 1) /\
    (exited (settle timeout (timeout_failure s0) (clock s) (inbox s)) ->
     if unread timeout (clock s) (inbox s)
     then parent_conn s' = open_conn /\ p' = p
     else left_clean s0 s' p p').
Proof.
  intros (Hrun & C & E & Shape) P.
  assert (St : started p = true).
  { destruct Hrun as (_ & _ & q & Q & St). rewrite P in Q. injection Q as <-. exact St. }
  assert (W : child_conn s = open_conn) by apply Hrun.
  destruct (poll timeout s) as [r s1] eqn:Hp.
  rewrite (poll_and_collect_step _ _ Hp).
  rewrite (poll_cases _ Hrun) in Hp.
  destruct Shape as [I | (t & b & v & p1 & I & P1 & X)].
  - rewrite I in *. cbn [settle settle_events unread no_outcome].
    destruct timeout as [d|]; injection Hp as <- <-.
    + destruct (@cancel_path s0 s p d Hrun C E P)
        as (s' & p' & Hc & T & C' & E' & W' & P' & St' & D' & K & K' & Clean).
      exists s', p', (alive_at p (clock s + clamp d)). rewrite Hc.
      split_all; auto.
      intros d' Hd. injection Hd as <-. exact K'.
    + exists s, p, false. rewrite app_nil_r. split_all; auto; try lra.
      * intros d Hd. discriminate Hd.
      * intros [].
  - rewrite P in P1. injection P1 as <-.
    rewrite I in *. cbn [settle settle_events unread truthy].
    assert (Ready : forall s1',
               ready_by timeout (clock s) t = true ->
               (forall d, timeout = Some d -> later (clock s) t <= clock s + clamp d) ->
               s1' = log (EvPoll timeout true) (set_clock (later (clock s) t) s) ->
               exists s' p' (alive : bool),
                 value s1' =
                   ((if loadable (VTuple [VBool b; v])
                     then if b then Raise (raised v) else Return v
                     else Raise (load_complaint (VTuple [VBool b; v]))), s') /\
                 trace s' = trace s ++
                            EvPoll timeout true ::
                            (if loadable (VTuple [VBool b; v])
                             then [EvRecv (VTuple [VBool b; v]); EvJoin (Some 1); EvCloseRead]
                             else []) /\
                 cfg s' = cfg s0 /\ env s' = env s0 /\ child_conn s' = open_conn /\
                 process s' = Some p' /\ started p' = true /\ daemon p' = daemon p /\
                 clock s <= clock s' /\
                 (forall d, timeout = Some d -> clock s' <= clock s + clamp d + 1) /\
                 (exited (if loadable (VTuple [VBool b; v])
                          then if b then Raise (raised v) else Return v
                          else Raise (load_complaint (VTuple [VBool b; v]))) ->
                  if true && negb (loadable (VTuple [VBool b; v]))
                  then parent_conn s' = open_conn /\ p' = p
                  else left_clean s0 s' p p')).
    { intros s1' _ Hbound ->.
      destruct (loadable (VTuple [VBool b; v])) eqn:L.
      - destruct (@value_path s0 s p timeout t b v Hrun C E P I X L)
          as (s' & p' & Hv & T & C' & E' & W' & P' & St' & D' & K & K' & Clean).
        exists s', p', false. rewrite Hv. split_all; auto.
        intros d Hd. specialize (Hbound d Hd). lra.
      - destruct (@unread_path s timeout t _ Hrun I L)
          as (s' & Hv & T & C' & E' & R' & W' & P' & K & K').
        exists s', p, false. rewrite Hv. split_all; auto; try congruence.
        + intros d Hd. specialize (Hbound d Hd). pose proof (clamp_nonneg d). lra.
        + intros _. cbn. auto. }
    destruct timeout as [d|]; cbn [ready_by] in *.
    + destruct (Qle_bool t (clock s + clamp d)) eqn:Rd; injection Hp as <- <-.
      * apply (Ready _ eq_refl); [|reflexivity].
        intros d' Hd. injection Hd as <-. apply Qle_bool_iff in Rd.
        pose proof (clamp_nonneg d). apply later_le; lra.
      * destruct (@cancel_path s0 s p d Hrun C E P)
          as (s' & p' & Hc & T & C' & E' & W' & P' & St' & D' & K & K' & Clean).
        exists s', p', (alive_at p (clock s + clamp d)). rewrite Hc.
        split_all; auto.
        intros d' Hd. injection Hd as <-. exact K'.
    + injection Hp as <- <-.
      apply (Ready _ eq_refl); [|reflexivity].
      intros d Hd. discriminate Hd.
Qed.

(** ** A whole invocation, in full *)

Lemma after_signal_running (s : State) t rest :
  running s -> running (after_signal s t rest).
Proof. intros (R & W & p & P & St). repeat split; auto. exists p; auto. Qed.

Lemma at_poll_outcome (s0 s : State) t m o p :
  running s -> cfg s = cfg s0 -> env s = env s0 ->
  inbox s = [(t, m)] -> outcome_message o = Some m ->
  process s = Some p -> exits_at p = Some (t + exit_latency (env s0)) ->
  at_poll s0 s.
Proof.
  intros R C E I M P X. destruct (outcome_message_pair _ M) as (b & v & ->).
  repeat split; try apply R; auto.
  right. exists t, b, v, p. auto.
Qed.

Lemma at_poll_empty (s0 s : State) :
  running s -> cfg s = cfg s0 -> env s = env s0 -> inbox s = [] -> at_poll s0 s.
Proof. intros R C E I. repeat split; try apply R; auto. Qed.

(** The three ways of [__call__] to line 48: hard mode, soft mode with a
    child that never signals, soft mode after the start signal. *)
Lemma call_cases args kwargs (s0 : State) :
  (dec_hard_timeout (cfg s0) = true /\
   at_poll s0 (after_start args kwargs s0) /\
   __call__ args kwargs s0 =
     poll_and_collect (dec_timeout (cfg s0)) (after_start args kwargs s0)) \/
  (dec_hard_timeout (cfg s0) = false /\
   fst (child_run args kwargs s0) = [] /\
   __call__ args kwargs s0 = (Blocked, after_start args kwargs s0)) \/
  (dec_hard_timeout (cfg s0) = false /\
   exists rest,
     fst (child_run args kwargs s0)
       = (clock s0 + spawn_latency (env s0), VStr "started") :: rest /\
     at_poll s0 (after_signal (after_start args kwargs s0)
                              (clock s0 + spawn_latency (env s0)) rest) /\
     __call__ args kwargs s0 =
       poll_and_collect (dec_timeout (cfg s0))
         (after_signal (after_start args kwargs s0)
                       (clock s0 + spawn_latency (env s0)) rest)).
Proof.
  rewrite call_unfold.
  pose proof (after_start_running args kwargs s0) as Hrun.
  assert (Hin : inbox (after_start args kwargs s0) = fst (child_run args kwargs s0))
    by reflexivity.
  assert (Hp : process (after_start args kwargs s0) = Some (spawned args kwargs s0))
    by reflexivity.
  assert (Hx : exits_at (spawned args kwargs s0) = snd (child_run args kwargs s0))
    by reflexivity.
  assert (Hc : cfg (after_start args kwargs s0) = cfg s0) by reflexivity.
  assert (He : env (after_start args kwargs s0) = env s0) by reflexivity.
  rewrite child_run_eq in Hin, Hx. cbv zeta in Hin, Hx.
  rewrite child_run_eq. cbv zeta.
  set (s := after_start args kwargs s0) in *.
  set (p := spawned args kwargs s0) in *.
  assert (Hsig : forall rest,
             running (after_signal s (clock s0 + spawn_latency (env s0)) rest))
    by (intros rest; apply after_signal_running; exact Hrun).
  destruct (dec_hard_timeout (cfg s0)) eqn:Hh.
  - left. split; [reflexivity|]. split; [|rewrite <- Hc; apply hard_step; rewrite Hc; exact Hh].
    destruct (spawn_fails (env s0)); [apply at_poll_empty; auto|].
    destruct (binds kwargs); [|apply at_poll_empty; auto].
    cbn [start_signal app] in Hin, Hx.
    destruct (outcome (function (cfg s0) args kwargs)) as [v | kind a | | ];
      try (apply at_poll_empty; auto; exact Hin).
    + destruct (outcome_message (Returns v)) as [m|] eqn:M;
        [eapply at_poll_outcome; eauto | apply at_poll_empty; auto].
    + destruct (outcome_message (Raises kind a)) as [m|] eqn:M;
        [eapply at_poll_outcome; eauto | apply at_poll_empty; auto].
  - right.
    destruct (spawn_fails (env s0)) eqn:Hf.
    { left. split; [reflexivity|]. split; [reflexivity|].
      apply soft_blocked; [exact Hrun | rewrite Hc; exact Hh | exact Hin]. }
    destruct (binds kwargs) eqn:Hb.
    2:{ left. split; [reflexivity|]. split; [reflexivity|].
        apply soft_blocked; [exact Hrun | rewrite Hc; exact Hh | exact Hin]. }
    right. split; [reflexivity|].
    cbn [start_signal app] in Hin, Hx. cbn [start_signal app].
    assert (Step : forall rest,
               inbox s = (clock s0 + spawn_latency (env s0), VStr "started") :: rest ->
               wait_and_collect s =
               poll_and_collect (dec_timeout (cfg s0))
                 (after_signal s (clock s0 + spawn_latency (env s0)) rest)).
    { intros rest I. rewrite <- Hc at 1.
      apply soft_step; [exact Hrun | rewrite Hc; exact Hh | exact I | reflexivity]. }
    destruct (outcome (function (cfg s0) args kwargs)) as [v | kind a | | ].
    + destruct (outcome_message (Returns v)) as [m|] eqn:M; cbn [fst snd] in *.
      * eexists. split; [reflexivity|]. split; [|apply (Step _ Hin)].
        eapply at_poll_outcome; [apply Hsig | exact Hc | exact He | reflexivity
                                | exact M | exact Hp | exact Hx].
      * eexists. split; [reflexivity|]. split; [|apply (Step _ Hin)].
        apply at_poll_empty; [apply Hsig | exact Hc | exact He | reflexivity].
    + destruct (outcome_message (Raises kind a)) as [m|] eqn:M; cbn [fst snd] in *.
      * eexists. split; [reflexivity|]. split; [|apply (Step _ Hin)].
        eapply at_poll_outcome; [apply Hsig | exact Hc | exact He | reflexivity
                                | exact M | exact Hp | exact Hx].
      * eexists. split; [reflexivity|]. split; [|apply (Step _ Hin)].
        apply at_poll_empty; [apply Hsig | exact Hc | exact He | reflexivity].
    + cbn [fst snd] in *.
      eexists. split; [reflexivity|]. split; [|apply (Step _ Hin)].
      apply at_poll_empty; [apply Hsig | exact Hc | exact He | reflexivity].
    + cbn [fst snd] in *.
      eexists. split; [reflexivity|]. split; [|apply (Step _ Hin)].
      apply at_poll_empty; [apply Hsig | exact Hc | exact He | reflexivity].
Qed.

Lemma poll_clock_ge (s0 : State) : clock s0 <= poll_clock s0.
Proof.
  unfold poll_clock. destruct (dec_hard_timeout (cfg s0)); [lra | apply later_ge_l].
Qed.

(** [__call__] gives what [invocation_result] reads off the stream of the
    child and does what [invocation_events] lists; the process it started
    carries the daemon flag of the platform; when it ends it leaves the
    Supervisor clean, unless [value] found a message that it could not
    rebuild. *)
Lemma call_facts args kwargs (s0 : State) :
  exists s' p' alive,
    __call__ args kwargs s0 = (invocation_result args kwargs s0, s') /\
    trace s' = trace s0 ++ spawn_events s0 ++ invocation_events args kwargs s0 alive /\
    cfg s' = cfg s0 /\ env s' = env s0 /\ child_conn s' = open_conn /\
    process s' = Some p' /\ started p' = true /\ daemon p' = daemon_flag (env s0) /\
    (exited (invocation_result args kwargs s0) ->
     clock s0 <= clock s' /\
     (forall d, dec_timeout (cfg s0) = Some d -> clock s' <= poll_clock s0 + clamp d + 1) /\
     if unread_reply args kwargs s0
     then parent_conn s' = open_conn /\ p' = spawned args kwargs s0
     else left_clean s0 s' (spawned args kwargs s0) p').
Proof.
  unfold invocation_result, invocation_events, unread_reply.
  pose proof (poll_clock_ge s0) as Hge. unfold poll_clock in *.
  assert (Hp : process (after_start args kwargs s0) = Some (spawned args kwargs s0))
    by reflexivity.
  destruct (call_cases args kwargs s0)
    as [(Hh & Hat & Hc) | [(Hh & Hin & Hc) | (Hh & rest & Hin & Hat & Hc)]];
    rewrite Hh in *; rewrite Hc.
  - destruct (@poll_and_collect_facts s0 _ (dec_timeout (cfg s0)) _ Hat Hp)
      as (s' & p' & alive & Hr & T & C & E & W & P & St & D & K & K' & Hl).
    exists s', p', alive.
    change (inbox (after_start args kwargs s0)) with (fst (child_run args kwargs s0)) in *.
    change (clock (after_start args kwargs s0)) with (clock s0) in *.
    cbn [trace after_start] in T. rewrite <- app_assoc in T.
    split_all; auto. intros Hex. split; [exact K|]. split; [exact K'|]. exact (Hl Hex).
  - rewrite Hin.
    exists (after_start args kwargs s0), (spawned args kwargs s0), false.
    cbn [trace after_start]. split_all; auto. intros [].
  - rewrite Hin.
    assert (Hp' : process (after_signal (after_start args kwargs s0)
                                        (clock s0 + spawn_latency (env s0)) rest)
                  = Some (spawned args kwargs s0)) by reflexivity.
    destruct (@poll_and_collect_facts s0 _ (dec_timeout (cfg s0)) _ Hat Hp')
      as (s' & p' & alive & Hr & T & C & E & W & P & St & D & K & K' & Hl).
    exists s', p', alive.
    change (inbox (after_signal (after_start args kwargs s0)
                                (clock s0 + spawn_latency (env s0)) rest)) with rest in *.
    change (clock (after_signal (after_start args kwargs s0)
                                (clock s0 + spawn_latency (env s0)) rest))
      with (later (clock s0) (clock s0 + spawn_latency (env s0))) in *.
    cbn [trace after_signal after_start log set_stream set_clock] in T.
    rewrite <- !app_assoc in T. cbn [app] in T.
    split_all; auto. intros Hex. split; [lra|]. split; [exact K'|]. exact (Hl Hex).
Qed.

Lemma call_result_eq args kwargs (s0 : State) :
  fst (__call__ args kwargs s0) = invocation_result args kwargs s0.
Proof.
  destruct (call_facts args kwargs s0) as (s' & p' & alive & H & _). rewrite H. reflexivity.
Qed.

(** ** The result, by the outcome of the computation *)

(** An invocation whose child does not get to [_target]: nothing is
    written. *)
Lemma invocation_unstarted args kwargs (s0 : State) :
  spawn_fails (env s0) = true \/ binds kwargs = false ->
  fst (child_run args kwargs s0) = [] /\
  invocation_result args kwargs s0 =
    (if dec_hard_timeout (cfg s0)
     then no_outcome (dec_timeout (cfg s0)) (timeout_failure s0)
     else Blocked) /\
  unread_reply args kwargs s0 = false /\
  forall alive,
    invocation_events args kwargs s0 alive =
    if dec_hard_timeout (cfg s0)
    then settle_events (dec_timeout (cfg s0)) (timeout_exception (cfg s0))
                       (exception_message (cfg s0)) alive (clock s0) []
    else [].
Proof.
  intros H.
  assert (E : fst (child_run args kwargs s0) = []).
  { rewrite child_run_eq. cbv zeta.
    destruct (spawn_fails (env s0)); [reflexivity|].
    destruct H as [H | H]; [discriminate H|]. rewrite H. reflexivity. }
  unfold invocation_result, unread_reply, invocation_events. rewrite E.
  destruct (dec_hard_timeout (cfg s0)); repeat split.
Qed.

(** An invocation whose child runs [_target]: the Supervisor takes the
    start signal, if any, and settles on the Outcome Message, if any. *)
Lemma invocation_started args kwargs (s0 : State) :
  spawn_fails (env s0) = false -> binds kwargs = true ->
  invocation_result args kwargs s0 =
    settle (dec_timeout (cfg s0)) (timeout_failure s0) (poll_clock s0)
           (reply_stream args kwargs s0) /\
  unread_reply args kwargs s0 =
    unread (dec_timeout (cfg s0)) (poll_clock s0) (reply_stream args kwargs s0) /\
  forall alive,
    invocation_events args kwargs s0 alive =
    signal_events (dec_hard_timeout (cfg s0)) ++
    settle_events (dec_timeout (cfg s0)) (timeout_exception (cfg s0))
                  (exception_message (cfg s0)) alive (poll_clock s0)
                  (reply_stream args kwargs s0).
Proof.
  intros Hf Hb.
  unfold invocation_result, unread_reply, invocation_events, reply_stream.
  rewrite child_run_eq, Hf, Hb. cbv zeta. unfold poll_clock.
  destruct (dec_hard_timeout (cfg s0));
    (destruct (outcome (function (cfg s0) args kwargs)) as [v | kind a | | ];
     [destruct (outcome_message (Returns v))
     | destruct (outcome_message (Raises kind a)) | | ]);
    cbn [start_signal app fst outcome_message signal_events]; repeat split.
Qed.

(** What [settle] gives for the reply of the child, by the outcome of the
    computation. *)
Lemma settle_reply args kwargs (s0 : State) (timeout : option Q) failure c :
  settle timeout failure c (reply_stream args kwargs s0) =
  match delivered (outcome (function (cfg s0) args kwargs)) with
  | Some r =>
      if ready_by timeout c
                  (clock s0 + spawn_latency (env s0) + takes (function (cfg s0) args kwargs))
      then r
      else Raise failure
  | None => no_outcome timeout failure
  end.
Proof.
  unfold reply_stream, delivered, outcome_message.
  destruct (outcome (function (cfg s0) args kwargs)) as [v | kind a | | ];
    try reflexivity.
  - destruct (picklable v); [|destruct (picklable (pickle_complaint v))];
      try reflexivity; cbn [settle truthy];
      rewrite loadable_pair, ?raised_pickle_complaint.
    + destruct (loadable v) eqn:L; [reflexivity|].
      rewrite (@load_complaint_pair _ _ L). reflexivity.
    + destruct (loadable (pickle_complaint v)) eqn:L; [reflexivity|].
      rewrite (@load_complaint_pair _ _ L). reflexivity.
  - destruct (picklable (VExc kind a)); [|reflexivity].
    cbn [settle truthy]. rewrite loadable_pair.
    destruct (loadable (VExc kind a)) eqn:L; [reflexivity|].
    rewrite (@load_complaint_pair _ _ L). reflexivity.
Qed.

(** A reply that can be rebuilt is read. *)
Lemma reply_loads_read args kwargs (s0 : State) (timeout : option Q) c :
  reply_loads (outcome (function (cfg s0) args kwargs)) = true ->
  unread timeout c (reply_stream args kwargs s0) = false.
Proof.
  unfold reply_loads, reply_stream.
  destruct (outcome_message (outcome (function (cfg s0) args kwargs))) as [m|];
    [|reflexivity].
  intros L. cbn [unread]. rewrite L. apply andb_false_r.
Qed.

(** A reply that is not read was in time and cannot be rebuilt; [value]
    raises the error of the rebuilding. *)
Lemma reply_unread args kwargs (s0 : State) (timeout : option Q) failure c :
  unread timeout c (reply_stream args kwargs s0) = true ->
  exists m,
    outcome_message (outcome (function (cfg s0) args kwargs)) = Some m /\
    loadable m = false /\
    settle timeout failure c (reply_stream args kwargs s0) = Raise (load_complaint m).
Proof.
  unfold reply_stream.
  destruct (outcome_message (outcome (function (cfg s0) args kwargs))) as [m|] eqn:M;
    [|discriminate].
  destruct (outcome_message_pair _ M) as (b & v & ->).
  cbn [unread settle]. intros H. apply andb_true_iff in H. destruct H as (R & L).
  apply negb_true_iff in L. rewrite R, L.
  exists (VTuple [VBool b; v]). auto.
Qed.

Lemma unread_reply_off args kwargs (s0 : State) :
  reply_loads (outcome (function (cfg s0) args kwargs)) = true ->
  unread_reply args kwargs s0 = false.
Proof.
  intros L.
  destruct (spawn_fails (env s0)) eqn:Hf;
    [apply (invocation_unstarted args kwargs s0); left; exact Hf|].
  destruct (binds kwargs) eqn:Hb;
    [|apply (invocation_unstarted args kwargs s0); right; exact Hb].
  destruct (invocation_started args kwargs s0 Hf Hb) as (_ & U & _).
  rewrite U. apply reply_loads_read. exact L.
Qed.

Lemma unread_reply_on args kwargs (s0 : State) :
  unread_reply args kwargs s0 = true ->
  spawn_fails (env s0) = false /\ binds kwargs = true /\
  exists m,
    outcome_message (outcome (function (cfg s0) args kwargs)) = Some m /\
    loadable m = false /\
    invocation_result args kwargs s0 = Raise (load_complaint m).
Proof.
  intros H.
  destruct (spawn_fails (env s0)) eqn:Hf.
  { destruct (invocation_unstarted args kwargs s0 (or_introl Hf)) as (_ & _ & U & _).
    rewrite U in H. discriminate H. }
  destruct (binds kwargs) eqn:Hb.
  2:{ destruct (invocation_unstarted args kwargs s0 (or_intror Hb)) as (_ & _ & U & _).
      rewrite U in H. discriminate H. }
  destruct (invocation_started args kwargs s0 Hf Hb) as (R & U & _).
  rewrite U in H. rewrite R.
  split; [reflexivity|]. split; [reflexivity|].
  apply reply_unread. exact H.
Qed.

Lemma invocation_result_started args kwargs (s0 : State) :
  spawn_fails (env s0) = false -> binds kwargs = true ->
  invocation_result args kwargs s0 =
  match delivered (outcome (function (cfg s0) args kwargs)) with
  | Some r =>
      if ready_by (dec_timeout (cfg s0)) (poll_clock s0)
                  (clock s0 + spawn_latency (env s0) + takes (function (cfg s0) args kwargs))
      then r
      else Raise (timeout_failure s0)
  | None => no_outcome (dec_timeout (cfg s0)) (timeout_failure s0)
  end.
Proof.
  intros Hf Hb.
  rewrite (proj1 (invocation_started args kwargs s0 Hf Hb)). apply settle_reply.
Qed.


(** With times that are not negative, [poll] finds the Outcome Message
    exactly when the charged time fits the budget. *)
Lemma ready_is_budget args kwargs (s0 : State) :
  0 <= spawn_latency (env s0) ->
  budget_nonneg (dec_timeout (cfg s0)) ->
  ready_by (dec_timeout (cfg s0)) (poll_clock s0)
           (clock s0 + spawn_latency (env s0) + takes (function (cfg s0) args kwargs))
  = budget_met (dec_timeout (cfg s0)) (charged s0 args kwargs).
Proof.
  intros Hl Hd. unfold ready_by, budget_met, poll_clock, charged.
  destruct (dec_timeout (cfg s0)) as [d|]; [|reflexivity]. cbn in Hd.
  pose proof (clamp_id Hd) as Hclamp.
  destruct (dec_hard_timeout (cfg s0)).
  - apply Qle_bool_ext. rewrite Hclamp. split; intros; lra.
  - rewrite (later_spawn _ Hl). apply Qle_bool_ext. rewrite Hclamp. split; intros; lra.
Qed.

(** ** What the Supervisor does, in order *)

Lemma cancel_events_no_recv alive kind msg m :
  ~ In (EvRecv m) (cancel_events alive kind msg).
Proof.
  unfold cancel_events. destruct alive; cbn;
    intros H; repeat (destruct H as [H | H]; try discriminate H); exact H.
Qed.

(** Lines 48 to 51 begin with the [poll], and receive nothing but what is
    in the pipe. *)
Lemma settle_events_order timeout kind msg alive c msgs :
  (forall t m, In (t, m) msgs -> m <> VStr "started") ->
  hard_order timeout (settle_events timeout kind msg alive c msgs).
Proof.
  intros Hm. unfold hard_order, settle_events.
  destruct msgs as [|[t m] rest].
  - destruct timeout as [d|].
    + split; [|right; eauto].
      intros [H | H]; [discriminate H | exact (@cancel_events_no_recv _ _ _ _ H)].
    + split; [intros [] | left; reflexivity].
  - destruct (ready_by timeout c t).
    + split; [|right; eauto].
      destruct (loadable m).
      * intros [H | [H | H]]; try discriminate H.
        -- injection H as ->. exact (Hm t _ (or_introl eq_refl) eq_refl).
        -- repeat (destruct H as [H | H]; try discriminate H); exact H.
      * intros [H | []]. discriminate H.
    + split; [|right; eauto].
      intros [H | H]; [discriminate H | exact (@cancel_events_no_recv _ _ _ _ H)].
Qed.

Lemma reply_stream_no_signal args kwargs (s0 : State) t m :
  In (t, m) (reply_stream args kwargs s0) -> m <> VStr "started".
Proof.
  unfold reply_stream.
  destruct (outcome_message (outcome (function (cfg s0) args kwargs))) as [m'|] eqn:M;
    [|intros []].
  destruct (outcome_message_pair _ M) as (b & v & ->).
  intros [H | []]. injection H as _ <-. discriminate.
Qed.

(** The order of the two modes, for every invocation. *)
Lemma invocation_events_order args kwargs (s0 : State) alive :
  if dec_hard_timeout (cfg s0)
  then hard_order (dec_timeout (cfg s0)) (invocation_events args kwargs s0 alive)
  else soft_order (dec_timeout (cfg s0)) (invocation_events args kwargs s0 alive).
Proof.
  destruct (spawn_fails (env s0)) eqn:Hf; [|destruct (binds kwargs) eqn:Hb].
  - destruct (invocation_unstarted args kwargs s0 (or_introl Hf)) as (_ & _ & _ & Ev).
    rewrite Ev. destruct (dec_hard_timeout (cfg s0)); [|left; reflexivity].
    apply settle_events_order. intros t m [].
  - destruct (invocation_started args kwargs s0 Hf Hb) as (_ & _ & Ev).
    rewrite Ev.
    pose proof (@settle_events_order (dec_timeout (cfg s0)) (timeout_exception (cfg s0))
                  (exception_message (cfg s0)) alive (poll_clock s0)
                  (reply_stream args kwargs s0) (reply_stream_no_signal args kwargs s0)) as H.
    destruct (dec_hard_timeout (cfg s0)); cbn [signal_events app]; [exact H|].
    right. eexists. split; [reflexivity|]. exact H.
  - destruct (invocation_unstarted args kwargs s0 (or_intror Hb)) as (_ & _ & _ & Ev).
    rewrite Ev. destruct (dec_hard_timeout (cfg s0)); [|left; reflexivity].
    apply settle_events_order. intros t m [].
Qed.

(** Without a budget neither [terminate] nor [raise_exception] is called. *)
Lemma settle_events_unbounded kind msg alive c msgs :
  ~ In EvTerminate (settle_events None kind msg alive c msgs) /\
  forall k m, ~ In (EvRaiseException k m) (settle_events None kind msg alive c msgs).
Proof.
  unfold settle_events. destruct msgs as [|[t m] rest]; [split; [|intros k m]; intros []|].
  cbn [ready_by].
  destruct (loadable m); (split; [|intros k m']); intros H;
    repeat (destruct H as [H | H]; try discriminate H); exact H.
Qed.

Lemma spawn_events_quiet (s0 : State) :
  ~ In EvTerminate (spawn_events s0) /\
  forall k m, ~ In (EvRaiseException k m) (spawn_events s0).
Proof.
  unfold spawn_events. split; [|intros k m]; intros H;
    repeat (destruct H as [H | H]; try discriminate H); exact H.
Qed.

Lemma invocation_events_unbounded args kwargs (s0 : State) alive :
  dec_timeout (cfg s0) = None ->
  ~ In EvTerminate (invocation_events args kwargs s0 alive) /\
  forall k m, ~ In (EvRaiseException k m) (invocation_events args kwargs s0 alive).
Proof.
  intros Hd. unfold invocation_events. rewrite Hd.
  destruct (dec_hard_timeout (cfg s0)); [apply settle_events_unbounded|].
  destruct (fst (child_run args kwargs s0)) as [|x rest];
    [split; [|intros k m]; intros []|].
  destruct (settle_events_unbounded (timeout_exception (cfg s0)) (exception_message (cfg s0))
                                    alive (poll_clock s0) rest) as (A & B).
  split; [|intros k m]; intros [H | H]; try discriminate H;
    [exact (A H) | exact (B _ _ H)].
Qed.

(** ** The handles at the end of an invocation *)

(** C6, as stated, fails: [sleep_then_return(0.1, "ok")] returns ["ok"] and
    the parent's handle on the write end, [self.__child_conn], is still
    open; no line of the class closes it. *)
Lemma call_leaves_write_end_open :
  fst (__call__ [] [] Scenario.quick_ok) = Return (VStr "ok") /\
  child_conn (snd (__call__ [] [] Scenario.quick_ok)) = open_conn /\
  ~ both_ends_closed (snd (__call__ [] [] Scenario.quick_ok)).
Proof.
  assert (H : child_conn (snd (__call__ [] [] Scenario.quick_ok)) = open_conn)
    by (vm_compute; reflexivity).
  split; [vm_compute; reflexivity|]. split; [exact H|].
  intros [_ C]. rewrite H in C. discriminate C.
Qed.

(** C6 (amended): whenever an invocation ends, by return or by raise, the
    Supervisor's own handle on the write end is left open; its read end is
    closed, with one exception: when the Outcome Message of the child cannot
    be rebuilt in the parent, [__call__] ends with the error of [recv] and
    the read end is left open as well. *)
Theorem call_exit_closes_read_end args kwargs (s0 : State) :
  exited (fst (__call__ args kwargs s0)) ->
  child_conn (snd (__call__ args kwargs s0)) = open_conn /\
  (parent_conn (snd (__call__ args kwargs s0)) = closed_conn \/
   (parent_conn (snd (__call__ args kwargs s0)) = open_conn /\
    exists m,
      outcome_message (outcome (function (cfg s0) args kwargs)) = Some m /\
      loadable m = false /\
      fst (__call__ args kwargs s0) = Raise (load_complaint m))).
Proof.
  destruct (call_facts args kwargs s0)
    as (s' & p' & alive & H & _ & _ & _ & W & _ & _ & _ & Hl).
  rewrite H. cbn [fst snd]. intros Hex. split; [exact W|].
  destruct (Hl Hex) as (_ & _ & Hend).
  destruct (unread_reply args kwargs s0) eqn:U.
  - right. split; [apply Hend|].
    destruct (unread_reply_on _ _ _ U) as (_ & _ & m & M & L & R). eauto.
  - left. apply Hend.
Qed.

(** A quick success: read end closed, write end open. *)
Lemma call_exit_closes_read_end_witness :
  child_conn (snd (__call__ [] [] Scenario.quick_ok)) = open_conn /\
  parent_conn (snd (__call__ [] [] Scenario.quick_ok)) = closed_conn.
Proof.
  assert (E : fst (__call__ [] [] Scenario.quick_ok) = Return (VStr "ok"))
    by (vm_compute; reflexivity).
  assert (X : exited (fst (__call__ [] [] Scenario.quick_ok))) by (rewrite E; exact I).
  split; [exact (proj1 (@call_exit_closes_read_end [] [] Scenario.quick_ok X))|].
  vm_compute. reflexivity.
Defined.

(** ** The daemon flag *)

Lemma below_3_0 (v : N * N) : version_lt v (3, 0)%N = (fst v <? 3)%N.
Proof.
  unfold version_lt. cbn [fst snd].
  assert (H : (snd v <? 0)%N = false) by (apply N.ltb_ge, N.le_0_l).
  rewrite H, andb_false_r, orb_false_r. reflexivity.
Qed.

Lemma daemon_flag_off (e : Env) :
  daemon_flag e = false <->
  (fst (version_info e) < 3)%N /\ system_windows e = true /\ in_main_thread e = false.
Proof.
  unfold daemon_flag. rewrite below_3_0.
  destruct (fst (version_info e) <? 3)%N eqn:V;
    destruct (system_windows e); destruct (in_main_thread e); cbn;
    try (apply N.ltb_lt in V); try (apply N.ltb_ge in V);
    split; intros; try discriminate; try tauto;
    repeat match goal with H : _ /\ _ |- _ => destruct H end;
    try discriminate; try lia.
Qed.

(** C8: the process started by [__call__] is daemonic in every
    configuration but one: its daemon flag is off exactly when the runtime
    is older than 3.0, the system is Windows and the call is not made from
    the main thread.  The flag is set after the [Process] object is built
    and before [start()], and nothing that [__call__] does afterwards
    changes it. *)
Theorem daemon_at_spawn args kwargs (s0 : State) :
  exists p rest,
    process (snd (__call__ args kwargs s0)) = Some p /\
    started p = true /\
    (daemon p = false <->
     (fst (version_info (env s0)) < 3)%N /\
     system_windows (env s0) = true /\
     in_main_thread (env s0) = false) /\
    trace (snd (__call__ args kwargs s0)) =
      trace s0 ++ [EvPipe; EvProcess; EvDaemon (daemon p); EvStart] ++ rest.
Proof.
  destruct (call_facts args kwargs s0)
    as (s' & p' & alive & H & T & _ & _ & _ & P & St & D & _).
  rewrite H. cbn [snd].
  exists p', (invocation_events args kwargs s0 alive).
  split; [exact P|]. split; [exact St|]. split.
  - rewrite D. apply daemon_flag_off.
  - rewrite T, D. reflexivity.
Qed.

(** ** Budgets *)

Lemma wait_and_poll_unbounded (s : State) r s' :
  running s -> dec_timeout (cfg s) = None ->
  wait_and_poll s = (r, s') -> r <> Return false.
Proof.
  intros Hrun Hd.
  assert (P : forall s1, running s1 -> poll None s1 = (r, s') -> r <> Return false).
  { intros s1 Hrun1 H. rewrite (poll_cases _ Hrun1) in H.
    destruct (inbox s1) as [|[t m] rest]; inversion H; discriminate. }
  unfold wait_and_poll, bind, gets, when, wait_until_process_started, bind, ret.
  destruct (negb (dec_hard_timeout (cfg s))).
  - destruct (recv s) as [[m | e | | ] s1] eqn:E; intros H;
      try (inversion H; discriminate).
    pose proof (recv_same_objects _ E) as Hsame.
    destruct Hsame as (C & Hsame').
    rewrite C, Hd in H.
    apply (P s1); [|exact H].
    eapply same_objects_running; [|exact Hrun].
    split; [exact C | exact Hsame'].
  - rewrite Hd. apply P. exact Hrun.
Qed.

(** C2, as stated, fails for a budget of zero: [poll(0)] does not wait, and
    five seconds of work end in the timeout failure. *)
Lemma zero_budget_times_out :
  dec_timeout (cfg Scenario.slow_zero) = Some 0 /\
  function (cfg Scenario.slow_zero) [] [] = {| takes := 5; outcome := Returns (VStr "ok") |} /\
  fst (__call__ [] [] Scenario.slow_zero) = Raise (VExc "TimeoutError" [VStr "timed out"]) /\
  fst (__call__ [] [] Scenario.slow_zero) <> Return (VStr "ok").
Proof.
  assert (H : fst (__call__ [] [] Scenario.slow_zero)
              = Raise (VExc "TimeoutError" [VStr "timed out"]))
    by (vm_compute; reflexivity).
  split; [reflexivity|]. split; [reflexivity|]. split; [exact H|].
  rewrite H. discriminate.
Qed.

(** C2 (amended): when the budget is absent ([None]) the Supervisor waits
    for the Outcome Message without bound: a computation that takes any
    finite time and returns a value fit for the pipe, called with keyword
    arguments that [_target] can bind, makes [__call__] return that value;
    and whatever the computation does, [poll] never answers false, and
    [__call__] calls neither [terminate] nor [raise_exception]: the timeout
    failure is not raised. *)
Theorem no_budget_waits_forever args kwargs (s0 : State) v :
  dec_timeout (cfg s0) = None ->
  spawn_fails (env s0) = false ->
  binds kwargs = true ->
  outcome (function (cfg s0) args kwargs) = Returns v ->
  picklable v = true ->
  loadable v = true ->
  fst (__call__ args kwargs s0) = Return v /\
  (forall f e t0 exc msg hard args' kwargs' s1,
      call_until_poll args' kwargs' (__init__ f exc msg None hard e t0) <> (Return false, s1)) /\
  (forall f e t0 exc msg hard args' kwargs',
      ~ In EvTerminate
           (trace (snd (__call__ args' kwargs' (__init__ f exc msg None hard e t0)))) /\
      forall k m,
        ~ In (EvRaiseException k m)
             (trace (snd (__call__ args' kwargs' (__init__ f exc msg None hard e t0))))).
Proof.
  intros Hd Hf Hb Ho Hp Hl. split; [|split].
  - rewrite call_result_eq, (invocation_result_started _ _ _ Hf Hb), Ho, Hd.
    cbn [delivered]. rewrite Hp, Hl. reflexivity.
  - intros f e t0 exc msg hard args' kwargs' s1 H.
    rewrite call_until_poll_unfold in H.
    apply wait_and_poll_unbounded in H;
      [congruence | apply after_start_running | reflexivity].
  - intros f e t0 exc msg hard args' kwargs'.
    destruct (call_facts args' kwargs' (__init__ f exc msg None hard e t0))
      as (s' & p' & alive & H & T & _).
    rewrite H. cbn [snd]. rewrite T. cbn [trace __init__ app].
    destruct (spawn_events_quiet (__init__ f exc msg None hard e t0)) as (A1 & B1).
    destruct (@invocation_events_unbounded args' kwargs' (__init__ f exc msg None hard e t0)
                alive eq_refl) as (A2 & B2).
    split; [|intros k m]; intros HI; apply in_app_or in HI; destruct HI as [HI | HI];
      [exact (A1 HI) | exact (A2 HI) | exact (B1 _ _ HI) | exact (B2 _ _ HI)].
Qed.

(** Five seconds of work and no budget. *)
Lemma no_budget_waits_forever_witness :
  dec_timeout (cfg Scenario.slow_unbounded) = None /\
  fst (__call__ [] [] Scenario.slow_unbounded) = Return (VStr "ok").
Proof.
  split; [reflexivity|].
  exact (proj1 (@no_budget_waits_forever [] [] Scenario.slow_unbounded (VStr "ok")
                  eq_refl eq_refl eq_refl eq_refl eq_refl eq_refl)).
Defined.

(** ** The start signal and the budget *)

(** In soft mode the child writes the start signal first, then at most one
    Outcome Message; in hard mode it writes no start signal. *)
Lemma target_message_order (f : Func) args kwargs (t : Q) :
  (exists out,
      messages (Child._target false f args kwargs (Child.boot t))
      = VStr "started" :: out /\
      (out = [] \/ exists b r, out = [VTuple [VBool b; r]])) /\
  ~ In (VStr "started")
       (messages (Child._target true f args kwargs (Child.boot t))).
Proof.
  rewrite !target_messages. cbn [started_msg app].
  destruct (outcome_message (outcome (f args kwargs))) as [m|] eqn:M.
  - destruct (outcome_message_pair _ M) as (b & v & ->).
    split; [eexists; split; [reflexivity | right; eauto]|].
    intros [H | []]. discriminate H.
  - split; [eexists; split; [reflexivity | left; reflexivity]|].
    intros [].
Qed.

(** C5: in soft mode the child writes the start signal before the Outcome
    Message, and [__call__] receives it before it polls, whatever the
    invocation; in hard mode no start signal is written or received and the
    [poll] follows [start()] at once.  So for a computation that returns a
    value fit for the pipe, in a child that starts and binds its arguments,
    the time the process takes to start does not count in soft mode: the
    budget [d] is met exactly when the computation itself takes at most
    [d]; in hard mode it is met exactly when start-up and computation
    together take at most [d]. *)
Theorem start_signal_and_budget args kwargs (s0 : State) (d : Q) v :
  spawn_fails (env s0) = false ->
  binds kwargs = true ->
  0 <= spawn_latency (env s0) ->
  dec_timeout (cfg s0) = Some d ->
  0 <= d ->
  outcome (function (cfg s0) args kwargs) = Returns v ->
  picklable v = true ->
  loadable v = true ->
  let startup := spawn_latency (env s0) in
  let work := takes (function (cfg s0) args kwargs) in
  (forall f a k t,
      (exists out,
          messages (Child._target false f a k (Child.boot t))
          = VStr "started" :: out /\
          (out = [] \/ exists b r, out = [VTuple [VBool b; r]])) /\
      ~ In (VStr "started")
           (messages (Child._target true f a k (Child.boot t)))) /\
  (forall a k s,
      exists rest,
        trace (snd (__call__ a k s)) = trace s ++ spawn_events s ++ rest /\
        if dec_hard_timeout (cfg s)
        then hard_order (dec_timeout (cfg s)) rest
        else soft_order (dec_timeout (cfg s)) rest) /\
  if dec_hard_timeout (cfg s0)
  then
    (exists rest,
        trace (snd (__call__ args kwargs s0)) =
          trace s0 ++ spawn_events s0 ++
          EvPoll (Some d) (Qle_bool (startup + work) d) :: rest) /\
    fst (__call__ args kwargs s0) =
      (if Qle_bool (startup + work) d then Return v else Raise (timeout_failure s0))
  else
    (exists rest,
        trace (snd (__call__ args kwargs s0)) =
          trace s0 ++ spawn_events s0 ++
          EvRecv (VStr "started") :: EvPoll (Some d) (Qle_bool work d) :: rest) /\
    fst (__call__ args kwargs s0) =
      (if Qle_bool work d then Return v else Raise (timeout_failure s0)).
Proof.
  intros Hf Hb Hl Hd Hd0 Ho Hp Hload startup work.
  split; [intros; apply target_message_order|].
  split.
  { intros a k s.
    destruct (call_facts a k s) as (s' & p' & alive & H & T & _).
    rewrite H. cbn [snd]. exists (invocation_events a k s alive).
    split; [exact T | apply invocation_events_order]. }
  destruct (call_facts args kwargs s0) as (s' & p' & alive & H & T & _).
  rewrite H. cbn [fst snd]. rewrite T.
  destruct (invocation_started args kwargs s0 Hf Hb) as (_ & _ & Ev). rewrite Ev.
  rewrite (invocation_result_started _ _ _ Hf Hb), Ho. cbn [delivered].
  rewrite Hp, Hload.
  assert (Hd' : budget_nonneg (dec_timeout (cfg s0))) by (rewrite Hd; exact Hd0).
  unfold reply_stream, settle_events. rewrite Ho. unfold outcome_message. rewrite Hp.
  rewrite (ready_is_budget _ _ _ Hl Hd'). unfold charged, budget_met. rewrite Hd.
  fold startup. fold work.
  destruct (dec_hard_timeout (cfg s0)); cbn [signal_events app].
  - split; [|reflexivity].
    destruct (Qle_bool (startup + work) d); eexists; reflexivity.
  - split; [|reflexivity].
    destruct (Qle_bool work d); eexists; reflexivity.
Qed.

(** Half a second to start and 0.6 seconds of work against a budget of one
    second: the soft mode returns, the hard mode times out. *)
Lemma start_signal_and_budget_witness :
  fst (__call__ [] [] Scenario.late_soft) = Return (VStr "ok") /\
  fst (__call__ [] [] Scenario.late_hard) = Raise (VExc "TimeoutError" [VStr "timed out"]).
Proof.
  assert (L : 0 <= 1 # 2) by (unfold Qle; simpl; lia).
  assert (D : 0 <= 1) by (unfold Qle; simpl; lia).
  split.
  - exact (proj2 (proj2 (proj2 (@start_signal_and_budget [] [] Scenario.late_soft 1 (VStr "ok")
                           eq_refl eq_refl L eq_refl D eq_refl eq_refl eq_refl)))).
  - exact (proj2 (proj2 (proj2 (@start_signal_and_budget [] [] Scenario.late_hard 1 (VStr "ok")
                           eq_refl eq_refl L eq_refl D eq_refl eq_refl eq_refl)))).
Defined.

(** ** The scenarios of the specification *)

Example sleep_then_return_ok :
  fst (__call__ [] [] Scenario.quick_ok) = Return (VStr "ok").
Proof. vm_compute. reflexivity. Qed.

Example sleep_too_long :
  fst (__call__ [] [] Scenario.slow_ok) = Raise (VExc "TimeoutError" [VStr "timed out"]).
Proof. vm_compute. reflexivity. Qed.

Example raise_value_error_bad :
  fst (__call__ [] [] Scenario.quick_bad) = Raise (VExc "ValueError" [VStr "bad"]).
Proof. vm_compute. reflexivity. Qed.

Example legacy_thread_not_daemonic :
  In (EvDaemon false)
     (trace (snd (__call__ [] []
                    (__init__ (Scenario.sleep_then 1 (Returns VNone)) "TimeoutError" "timed out"
                              (Some 2) false Scenario.legacy_windows_thread 0)))).
Proof. vm_compute. tauto. Qed.

(** * Further properties *)

(** ** Calls in sequence *)

Lemma child_run_same args kwargs (s s' : State) :
  cfg s = cfg s' -> env s = env s' -> clock s = clock s' ->
  child_run args kwargs s = child_run args kwargs s'.
Proof.
  intros C E K. unfold child_run, fresh_process. rewrite C, E, K. reflexivity.
Qed.

(** A Supervisor can be called again: what an invocation gives depends on
    the configuration, the platform and the time of the call, and on nothing
    that an earlier invocation left in the object, such as a message that
    stayed in the old pipe. *)
Theorem call_ignores_earlier_calls args kwargs (s s' : State) :
  cfg s = cfg s' -> env s = env s' -> clock s = clock s' ->
  fst (__call__ args kwargs s) = fst (__call__ args kwargs s').
Proof.
  intros C E K. rewrite !call_result_eq.
  unfold invocation_result, timeout_failure, poll_clock.
  rewrite (child_run_same args kwargs s s' C E K), C, E, K. reflexivity.
Qed.

(** The used Supervisor still holds the late result of its first call. *)
Lemma call_ignores_earlier_calls_witness :
  inbox late_hard_done = [(22 # 20, VTuple [VBool false; VStr "ok"])] /\
  inbox late_hard_fresh = [] /\
  fst (__call__ [] [] late_hard_done) = fst (__call__ [] [] late_hard_fresh).
Proof.
  split; [reflexivity|]. split; [reflexivity|].
  apply (@call_ignores_earlier_calls [] [] late_hard_done late_hard_fresh); reflexivity.
Defined.

(** ** What [__call__] returns and raises *)






(** ** Budgets, for every outcome *)



(** A result that cannot be pickled does not get lost when the error of
    its [send] can be pickled and rebuilt: within the budget [__call__]
    raises that error, the one the pickler raised for this object. *)
Theorem call_reports_unpicklable_result args kwargs (s0 : State) v :
  spawn_fails (env s0) = false ->
  binds kwargs = true ->
  0 <= spawn_latency (env s0) ->
  budget_nonneg (dec_timeout (cfg s0)) ->
  outcome (function (cfg s0) args kwargs) = Returns v ->
  picklable v = false ->
  picklable (pickle_complaint v) = true ->
  loadable (pickle_complaint v) = true ->
  fst (__call__ args kwargs s0) =
  if budget_met (dec_timeout (cfg s0)) (charged s0 args kwargs)
  then Raise (pickle_complaint v)
  else Raise (timeout_failure s0).
Proof.
  intros Hf Hb Hl Hd Ho Hp Hc Hload.
  rewrite call_result_eq, (invocation_result_started _ _ _ Hf Hb), Ho.
  cbn [delivered]. rewrite Hp, Hc, Hload, (ready_is_budget _ _ _ Hl Hd). reflexivity.
Qed.

Lemma call_reports_unpicklable_result_witness :
  fst (__call__ [] [] lock_result) = Raise PicklingError.
Proof.
  assert (L : 0 <= 1 # 2) by (unfold Qle; simpl; lia).
  assert (D : 0 <= 1) by (unfold Qle; simpl; lia).
  exact (@call_reports_unpicklable_result [] [] lock_result (opaque 7)
           eq_refl eq_refl L D eq_refl eq_refl eq_refl eq_refl).
Defined.

(** A computation that leaves no Outcome Message (it never returns, its
    process dies, or what it raises, or the error of sending what it
    returns, cannot be pickled), in a child that started and bound its
    arguments, looks like one that is too slow: under a numeric budget
    [__call__] raises the timeout failure, in either mode, and without a
    budget it blocks. *)
Theorem call_silent_child args kwargs (s0 : State) :
  spawn_fails (env s0) = false ->
  binds kwargs = true ->
  silent (outcome (function (cfg s0) args kwargs)) = true ->
  fst (__call__ args kwargs s0) =
  match dec_timeout (cfg s0) with
  | Some _ => Raise (timeout_failure s0)
  | None => Blocked
  end.
Proof.
  intros Hf Hb Hs.
  rewrite call_result_eq, (proj1 (invocation_started args kwargs s0 Hf Hb)).
  unfold reply_stream. unfold silent in Hs.
  destruct (outcome_message (outcome (function (cfg s0) args kwargs)));
    [discriminate Hs | reflexivity].
Qed.

Lemma call_silent_child_witness :
  fst (__call__ [] [] lock_failure) = Raise (VExc "TimeoutError" [VStr "timed out"]).
Proof.
  exact (@call_silent_child [] [] lock_failure eq_refl eq_refl eq_refl).
Defined.

(** A keyword argument named like one of the first three parameters of
    [_target] makes the call of [_target] in the child a [TypeError]: the
    child writes nothing, not even the start signal, so that in soft mode
    [__call__] blocks, and in hard mode it raises the timeout failure under
    a numeric budget and blocks without one. *)
Theorem call_colliding_keyword args kwargs (s0 : State) :
  binds kwargs = false ->
  (forall t,
      main (dec_hard_timeout (cfg s0)) (function (cfg s0)) args kwargs (boot t) =
      (Raise (TypeError "_target() got multiple values for argument"), boot t)) /\
  fst (child_run args kwargs s0) = [] /\
  fst (__call__ args kwargs s0) =
  match dec_hard_timeout (cfg s0), dec_timeout (cfg s0) with
  | true, Some _ => Raise (timeout_failure s0)
  | _, _ => Blocked
  end.
Proof.
  intros Hb.
  split; [intros t; unfold main; rewrite Hb; reflexivity|].
  destruct (invocation_unstarted args kwargs s0 (or_intror Hb)) as (E & R & _).
  split; [exact E|].
  rewrite call_result_eq, R.
  destruct (dec_hard_timeout (cfg s0)); [|reflexivity].
  destruct (dec_timeout (cfg s0)); reflexivity.
Qed.

Lemma call_colliding_keyword_witness :
  fst (__call__ [] colliding_kwargs Scenario.late_hard)
    = Raise (VExc "TimeoutError" [VStr "timed out"]) /\
  fst (__call__ [] colliding_kwargs Scenario.late_soft) = Blocked.
Proof.
  split.
  - exact (proj2 (proj2 (@call_colliding_keyword [] colliding_kwargs Scenario.late_hard
                           eq_refl))).
  - exact (proj2 (proj2 (@call_colliding_keyword [] colliding_kwargs Scenario.late_soft
                           eq_refl))).
Defined.

(** ** The child at the end of an invocation *)


(** No child is left behind: when [__call__] ends, by return or by raise,
    the Outcome Message (if any) can be rebuilt in the parent, and the
    system ends a process within the second that [join] waits (after
    [terminate()] and after the last statement of the child), the child
    has been reaped and is not alive. *)
Theorem call_leaves_no_child args kwargs (s0 : State) :
  exited (fst (__call__ args kwargs s0)) ->
  kill_latency (env s0) <= 1 ->
  exit_latency (env s0) <= 1 ->
  reply_loads (outcome (function (cfg s0) args kwargs)) = true ->
  exists p,
    process (snd (__call__ args kwargs s0)) = Some p /\
    started p = true /\ reaped p = true /\
    alive_at p (clock (snd (__call__ args kwargs s0))) = false.
Proof.
  destruct (call_facts args kwargs s0)
    as (s' & p' & alive & H & _ & _ & _ & _ & P & St & _ & Hl).
  rewrite H. cbn [fst snd]. intros Hex Hk He Hload.
  destruct (Hl Hex) as (_ & _ & Hend).
  rewrite (unread_reply_off _ _ _ Hload) in Hend.
  destruct Hend as (_ & Reap & _).
  exists p'. destruct (Reap Hk He). auto.
Qed.

Lemma call_leaves_no_child_witness :
  exists p,
    process (snd (__call__ [] [] Scenario.slow_ok)) = Some p /\
    started p = true /\ reaped p = true /\
    alive_at p (clock (snd (__call__ [] [] Scenario.slow_ok))) = false.
Proof.
  assert (E : fst (__call__ [] [] Scenario.slow_ok)
              = Raise (VExc "TimeoutError" [VStr "timed out"]))
    by (vm_compute; reflexivity).
  assert (K : 1 # 10 <= 1) by (unfold Qle; simpl; lia).
  assert (K' : 1 # 100 <= 1) by (unfold Qle; simpl; lia).
  apply (@call_leaves_no_child [] [] Scenario.slow_ok);
    [rewrite E; exact I | exact K | exact K' | reflexivity].
Defined.

(** A reply that cannot be rebuilt leaves the Supervisor half-way: when the
    Outcome Message of the child is pickled but cannot be rebuilt in the
    parent, and arrives within the budget, [__call__] raises the error of
    the rebuilding at the [recv] of [value]; the read end stays open, the
    child is neither joined nor terminated, and [poll] is the last thing
    the Supervisor did. *)
Theorem call_unrebuilt_reply args kwargs (s0 : State) m :
  spawn_fails (env s0) = false ->
  binds kwargs = true ->
  0 <= spawn_latency (env s0) ->
  budget_nonneg (dec_timeout (cfg s0)) ->
  outcome_message (outcome (function (cfg s0) args kwargs)) = Some m ->
  loadable m = false ->
  budget_met (dec_timeout (cfg s0)) (charged s0 args kwargs) = true ->
  fst (__call__ args kwargs s0) = Raise (load_complaint m) /\
  parent_conn (snd (__call__ args kwargs s0)) = open_conn /\
  (exists p,
      process (snd (__call__ args kwargs s0)) = Some p /\
      reaped p = false /\ terminated p = false) /\
  trace (snd (__call__ args kwargs s0)) =
    trace s0 ++ spawn_events s0 ++ signal_events (dec_hard_timeout (cfg s0)) ++
    [EvPoll (dec_timeout (cfg s0)) true].
Proof.
  intros Hf Hb Hl Hd M L B.
  destruct (call_facts args kwargs s0)
    as (s' & p' & alive & H & T & _ & _ & _ & P & _ & _ & Hend).
  rewrite H. cbn [fst snd].
  destruct (invocation_started args kwargs s0 Hf Hb) as (R & U & Ev).
  rewrite T, Ev, R, U in *. clear T Ev R U.
  destruct (outcome_message_pair _ M) as (b & v & ->).
  unfold reply_stream in *. rewrite M in *.
  cbn [settle settle_events unread] in *.
  rewrite (ready_is_budget _ _ _ Hl Hd), B, L in *. cbn [andb negb] in Hend.
  destruct (Hend I) as (_ & _ & R & ->).
  split; [reflexivity|]. split; [exact R|]. split; [|reflexivity].
  eexists. split; [exact P|]. split; reflexivity.
Qed.

Lemma call_unrebuilt_reply_witness :
  fst (__call__ [] [] one_way_failure) = Raise (load_complaint two_arg_error) /\
  parent_conn (snd (__call__ [] [] one_way_failure)) = open_conn.
Proof.
  assert (L : 0 <= 1 # 2) by (unfold Qle; simpl; lia).
  assert (D : 0 <= 1) by (unfold Qle; simpl; lia).
  destruct (@call_unrebuilt_reply [] [] one_way_failure (VTuple [VBool true; two_arg_error])
              eq_refl eq_refl L D eq_refl eq_refl eq_refl) as (R & C & _).
  split; [exact R | exact C].
Defined.

(** Work without end is stopped: under a numeric budget [__call__] raises
    the timeout failure and has called [terminate()] on the child. *)
Theorem endless_work_is_terminated args kwargs (s0 : State) (d : Q) :
  spawn_fails (env s0) = false ->
  binds kwargs = true ->
  outcome (function (cfg s0) args kwargs) = NeverReturns ->
  dec_timeout (cfg s0) = Some d ->
  fst (__call__ args kwargs s0) = Raise (timeout_failure s0) /\
  exists p,
    process (snd (__call__ args kwargs s0)) = Some p /\ terminated p = true.
Proof.
  intros Hf Hb Ho Hd.
  destruct (call_facts args kwargs s0)
    as (s' & p' & alive & H & _ & _ & _ & _ & P & _ & _ & Hl).
  rewrite H. cbn [fst snd].
  assert (R : invocation_result args kwargs s0 = Raise (timeout_failure s0)).
  { rewrite (invocation_result_started _ _ _ Hf Hb), Ho. cbn [delivered].
    unfold no_outcome. rewrite Hd. reflexivity. }
  rewrite R in *. split; [reflexivity|].
  destruct (Hl I) as (_ & _ & Hend).
  assert (Hload : reply_loads (outcome (function (cfg s0) args kwargs)) = true)
    by (rewrite Ho; reflexivity).
  rewrite (unread_reply_off _ _ _ Hload) in Hend.
  destruct Hend as (_ & _ & Tm).
  exists p'. split; [exact P|].
  apply Tm. change (exits_at (spawned args kwargs s0)) with (snd (child_run args kwargs s0)).
  rewrite child_run_eq, Hf, Hb. cbv zeta. rewrite Ho. reflexivity.
Qed.

Lemma endless_work_is_terminated_witness :
  fst (__call__ [] [] endless) = Raise (VExc "TimeoutError" [VStr "timed out"]) /\
  exists p, process (snd (__call__ [] [] endless)) = Some p /\ terminated p = true.
Proof.
  exact (@endless_work_is_terminated [] [] endless 1 eq_refl eq_refl eq_refl eq_refl).
Defined.



(** ** The methods after an invocation *)

(** [cancel] needs a started process and a read end, open or closed. *)
Lemma cancel_any (s : State) (c : Connection) (p : Process) :
  parent_conn s = Some c -> process s = Some p -> started p = true ->
  exists s',
    cancel s = (Raise (timeout_failure s), s') /\
    parent_conn s' = closed_conn /\
    exists l, trace s' = trace s ++ l /\ In (EvJoin (Some 1)) l /\ ~ In (EvRecv (VStr "started")) l.
Proof.
  intros R P St.
  unfold cancel. unfold bind at 1. rewrite (is_alive_run _ P).
  assert (Step : exists s1 p1 l1,
             when (alive_at p (clock s)) terminate (log (EvIsAlive (alive_at p (clock s))) s)
             = (Return tt, s1) /\
             cfg s1 = cfg s /\ parent_conn s1 = Some c /\
             process s1 = Some p1 /\ started p1 = true /\
             trace s1 = trace s ++ l1 /\ ~ In (EvRecv (VStr "started")) l1).
  { destruct (alive_at p (clock s)) eqn:A; unfold when.
    - match goal with |- context [terminate ?s0] =>
        destruct (@terminate_facts s0 p P St)
          as (s1 & p1 & x & T & C1 & _ & _ & R1 & _ & T1 & P1 & St1 & _)
      end.
      cbn in C1, R1, T1.
      exists s1, p1, [EvIsAlive true; EvTerminate]. rewrite R1, T1, <- app_assoc.
      split_all; auto.
      intros [H | [H | []]]; discriminate H.
    - exists (log (EvIsAlive false) s), p, [EvIsAlive false]. split; [reflexivity|]. cbn.
      split_all; auto.
      intros [H | []]; discriminate H. }
  destruct Step as (s1 & p1 & l1 & T & C1 & R1 & P1 & St1 & T1 & N1).
  unfold bind at 1. rewrite T.
  destruct (@join_facts s1 p1 P1 St1)
    as (s2 & p2 & J & C2 & _ & R2 & _ & _ & T2 & _).
  unfold bind at 1. rewrite J.
  unfold bind at 1. rewrite R1 in R2. rewrite (close_run _ R2).
  unfold bind, gets, raise_exception.
  eexists. split.
  { unfold timeout_failure. cbn. rewrite C2, C1. reflexivity. }
  cbn. split; [reflexivity|].
  exists (l1 ++ [EvJoin (Some 1); EvCloseRead;
                 EvRaiseException (timeout_exception (cfg s)) (exception_message (cfg s))]).
  rewrite T2, T1, ?C2, ?C1, <- !app_assoc. split; [reflexivity|]. split.
  - apply in_or_app. right. left. reflexivity.
  - intros H. apply in_app_or in H. destruct H as [H | H]; [exact (N1 H)|].
    destruct H as [H | [H | [H | []]]]; discriminate H.
Qed.

(** [cancel()] after an invocation that ended, even one that returned a
    value, raises the configured timeout failure: the process is joined
    again and closing the closed read end is allowed. *)
Theorem cancel_after_call args kwargs (s0 : State) :
  exited (fst (__call__ args kwargs s0)) ->
  fst (cancel (snd (__call__ args kwargs s0))) = Raise (timeout_failure s0).
Proof.
  destruct (call_facts args kwargs s0)
    as (s' & p' & alive & H & _ & C & _ & _ & P & St & _ & Hl).
  rewrite H. cbn [fst snd]. intros Hex.
  destruct (Hl Hex) as (_ & _ & Hend).
  assert (R : exists c, parent_conn s' = Some c).
  { destruct (unread_reply args kwargs s0); destruct Hend as (R & _);
      rewrite R; eexists; reflexivity. }
  destruct R as (c & R).
  destruct (cancel_any _ R P St) as (s2 & Hc & _).
  rewrite Hc. unfold timeout_failure. rewrite C. reflexivity.
Qed.

Lemma cancel_after_call_witness :
  fst (__call__ [] [] Scenario.quick_ok) = Return (VStr "ok") /\
  fst (cancel (snd (__call__ [] [] Scenario.quick_ok)))
    = Raise (VExc "TimeoutError" [VStr "timed out"]).
Proof.
  assert (E : fst (__call__ [] [] Scenario.quick_ok) = Return (VStr "ok"))
    by (vm_compute; reflexivity).
  split; [exact E|].
  apply (@cancel_after_call [] [] Scenario.quick_ok). rewrite E. exact I.
Defined.

(** The result is not kept: after an invocation that ended with its
    Outcome Message (if any) rebuilt, reading [value] once more, or waiting
    for the start signal, fails on the closed read end with [OSError] and
    changes nothing. *)
Theorem value_after_call args kwargs (s0 : State) :
  exited (fst (__call__ args kwargs s0)) ->
  reply_loads (outcome (function (cfg s0) args kwargs)) = true ->
  value (snd (__call__ args kwargs s0))
    = (Raise (OSError "handle is closed"), snd (__call__ args kwargs s0)) /\
  wait_until_process_started (snd (__call__ args kwargs s0))
    = (Raise (OSError "handle is closed"), snd (__call__ args kwargs s0)).
Proof.
  destruct (call_facts args kwargs s0)
    as (s' & p' & alive & H & _ & _ & _ & _ & _ & _ & _ & Hl).
  rewrite H. cbn [fst snd]. intros Hex Hload.
  destruct (Hl Hex) as (_ & _ & Hend).
  rewrite (unread_reply_off _ _ _ Hload) in Hend.
  destruct Hend as (R & _).
  unfold value, wait_until_process_started, bind, recv. rewrite R. cbn. auto.
Qed.

Lemma value_after_call_witness :
  fst (__call__ [] [] Scenario.quick_ok) = Return (VStr "ok") /\
  fst (value (snd (__call__ [] [] Scenario.quick_ok))) = Raise (OSError "handle is closed").
Proof.
  assert (E : fst (__call__ [] [] Scenario.quick_ok) = Return (VStr "ok"))
    by (vm_compute; reflexivity).
  split; [exact E|].
  assert (X : exited (fst (__call__ [] [] Scenario.quick_ok))) by (rewrite E; exact I).
  rewrite (proj1 (@value_after_call [] [] Scenario.quick_ok X eq_refl)). reflexivity.
Defined.

(** ** What leaves the child *)

(** No exception of the computation leaves the child as such.  What the
    call of [_target] raises is the [TypeError] of a keyword argument that
    collides with its first three parameters (then the body never ran:
    nothing was written and [child_conn] was not closed), or the error of
    the [send] in the handler: for a failure that cannot be pickled, or for
    a result that cannot be pickled whose own [send] error cannot be pickled
    either.  In the last two cases no Outcome Message was written and the
    write end is closed. *)
Theorem target_raises_only_send_error (hard : bool) (f : Func) args kwargs (t : Q) e :
  fst (main hard f args kwargs (boot t)) = Raise e ->
  (binds kwargs = false /\
   e = TypeError "_target() got multiple values for argument" /\
   snd (main hard f args kwargs (boot t)) = boot t) \/
  (binds kwargs = true /\
   ((exists kind a,
        outcome (f args kwargs) = Raises kind a /\
        picklable (VExc kind a) = false /\
        e = pickle_complaint (VExc kind a)) \/
    (exists v,
        outcome (f args kwargs) = Returns v /\
        picklable v = false /\
        picklable (pickle_complaint v) = false /\
        e = pickle_complaint (pickle_complaint v))) /\
   messages (main hard f args kwargs (boot t)) = started_msg hard /\
   closed (snd (main hard f args kwargs (boot t))) = true).
Proof.
  unfold main. destruct (binds kwargs).
  2:{ intros H. injection H as <-. left. auto. }
  intros H. right. split; [reflexivity|].
  rewrite target_messages.
  pose proof (target_closed_on_exit hard f args kwargs t) as Hc.
  unfold closed_on_exit in Hc. rewrite H in Hc.
  rewrite target_run in H. cbv zeta in H.
  destruct (outcome (f args kwargs)) as [v | kind a | | ]; try discriminate H.
  - destruct (outcome_message (Returns v)) as [m|] eqn:M; [discriminate H|].
    injection H as <-. rewrite app_nil_r. split; [|auto].
    right. exists v. unfold outcome_message in M.
    destruct (picklable v); [discriminate M|].
    destruct (picklable (pickle_complaint v)); [discriminate M|]. auto.
  - destruct (outcome_message (Raises kind a)) as [m|] eqn:M; [discriminate H|].
    injection H as <-. rewrite app_nil_r. split; [|auto].
    left. exists kind, a. unfold outcome_message in M.
    destruct (picklable (VExc kind a)); [discriminate M|]. auto.
Qed.

Lemma target_raises_only_send_error_witness :
  fst (main true raises_unpicklable [] [] (boot 0)) = Raise PicklingError /\
  messages (main true raises_unpicklable [] [] (boot 0)) = [].
Proof.
  assert (H : fst (main true raises_unpicklable [] [] (boot 0)) = Raise PicklingError)
    by reflexivity.
  split; [exact H|].
  destruct (@target_raises_only_send_error true raises_unpicklable [] [] 0 PicklingError H)
    as [(B & _) | (_ & _ & M & _)]; [discriminate B | exact M].
Defined.

(** ** The order of the cleanup *)

Lemma cancel_events_cleanup (s0 : State) alive ev :
  before_cleanup ev = true ->
  exists pre tail,
    ev :: cancel_events alive (timeout_exception (cfg s0)) (exception_message (cfg s0))
      = pre ++ [EvJoin (Some 1); EvCloseRead] ++ tail /\
    forallb before_cleanup pre = true /\
    (tail = [] \/
     tail = [EvRaiseException (timeout_exception (cfg s0)) (exception_message (cfg s0))]).
Proof.
  intros Q.
  exists ([ev; EvIsAlive alive] ++ (if alive then [EvTerminate] else [])),
    [EvRaiseException (timeout_exception (cfg s0)) (exception_message (cfg s0))].
  unfold cancel_events. split; [destruct alive; reflexivity|].
  split; [|right; reflexivity].
  cbn. rewrite Q. destruct alive; reflexivity.
Qed.

(** Lines 48 to 51, when they come to an end with the message read. *)
Lemma settle_events_cleanup (s0 : State) timeout alive c msgs :
  exited (settle timeout (timeout_failure s0) c msgs) ->
  unread timeout c msgs = false ->
  exists pre tail,
    settle_events timeout (timeout_exception (cfg s0)) (exception_message (cfg s0))
                  alive c msgs
      = pre ++ [EvJoin (Some 1); EvCloseRead] ++ tail /\
    forallb before_cleanup pre = true /\
    (tail = [] \/
     tail = [EvRaiseException (timeout_exception (cfg s0)) (exception_message (cfg s0))]).
Proof.
  unfold settle_events, unread.
  destruct msgs as [|[t m] rest].
  - cbn [settle no_outcome]. destruct timeout as [d|]; [|intros []].
    intros _ _. apply cancel_events_cleanup. reflexivity.
  - destruct (ready_by timeout c t) eqn:Rd.
    + intros _ U. cbn in U. apply negb_false_iff in U. rewrite U.
      exists [EvPoll timeout true; EvRecv m], []. repeat split. left. reflexivity.
    + intros _ _. apply cancel_events_cleanup. reflexivity.
Qed.

(** The cleanup comes last and in order: the trace of an invocation that
    ended with its Outcome Message (if any) rebuilt has exactly one
    [join(timeout=1.0)], followed at once by the one closing of the read
    end; whatever else the Supervisor did, [terminate] included, comes
    before, and only the raising of the timeout failure comes after. *)
Theorem call_joins_then_closes args kwargs (s0 : State) :
  exited (fst (__call__ args kwargs s0)) ->
  reply_loads (outcome (function (cfg s0) args kwargs)) = true ->
  cleanup_last s0 (trace s0) (trace (snd (__call__ args kwargs s0))).
Proof.
  destruct (call_facts args kwargs s0) as (s' & p' & alive & H & T & _).
  rewrite H. cbn [fst snd]. intros Hex Hload.
  pose proof (unread_reply_off _ _ _ Hload) as U.
  rewrite T. clear T H.
  unfold invocation_result, invocation_events, unread_reply in *.
  destruct (dec_hard_timeout (cfg s0)).
  - destruct (settle_events_cleanup s0 _ alive _ _ Hex U) as (pre & tail & E & Q & Tl).
    exists (spawn_events s0 ++ pre), tail. rewrite E, <- !app_assoc.
    split; [reflexivity|]. split; [|exact Tl].
    rewrite forallb_app, Q. reflexivity.
  - destruct (fst (child_run args kwargs s0)) as [|x rest]; [destruct Hex|].
    destruct (settle_events_cleanup s0 _ alive _ _ Hex U) as (pre & tail & E & Q & Tl).
    exists (spawn_events s0 ++ EvRecv (VStr "started") :: pre), tail.
    rewrite E, <- !app_assoc.
    split; [reflexivity|]. split; [|exact Tl].
    rewrite forallb_app. cbn. rewrite Q. reflexivity.
Qed.

Lemma call_joins_then_closes_witness :
  cleanup_last Scenario.slow_ok (trace Scenario.slow_ok)
               (trace (snd (__call__ [] [] Scenario.slow_ok))).
Proof.
  assert (E : fst (__call__ [] [] Scenario.slow_ok)
              = Raise (VExc "TimeoutError" [VStr "timed out"]))
    by (vm_compute; reflexivity).
  apply (@call_joins_then_closes [] [] Scenario.slow_ok);
    [rewrite E; exact I | reflexivity].
Defined.
